(** * Announcements router of the High School Management System API

    A shallow embedding of [src/backend/routers/announcements.py]:
    the five FastAPI handlers over the [announcements_collection]
    document store, together with the properties of the specification
    that concern them.

    The handlers call three libraries whose code is not part of the
    repository: [datetime] (clock and ISO-8601 parsing), [bson.ObjectId]
    and the document store's client.  The parsers and generators of the
    first two are kept as an interface ([Platform]); the store's
    operations and its query language are modelled directly, restricted
    to the operators the handlers use. *)

From Stdlib Require Import ZArith NArith Ascii.
From stdpp Require Import gmap strings list fin_maps.

(** ** Python-level data *)

(** [bson.ObjectId]: a 12-byte value, kept as the number it encodes. *)
Record ObjectId := mkObjectId { binary : N }.

Global Instance ObjectId_eq_dec : EqDecision ObjectId.
Proof. solve_decision. Defined.

(** Values stored in a document.  The handlers only ever write strings;
    [VNull] is Python's [None] and [VOid] the store-assigned key.  The
    other BSON types (numbers, arrays, embedded documents) are never
    written or queried by the handlers and are left out. *)
Inductive value :=
| VNull
| VStr (s : string)
| VOid (o : ObjectId).

Global Instance value_eq_dec : EqDecision value.
Proof. solve_decision. Defined.

(** A document is a Python [dict] with string keys. *)
Abbreviation Doc := (gmap string value).

(** [datetime.datetime]: the calendar reading in microseconds since
    0001-01-01T00:00:00 and, for an aware value, its UTC offset in
    microseconds; [None] is a naive value. *)
Record datetime := mkDatetime { wall : Z; utcoffset : option Z }.

(** Exceptions the handlers can meet. *)
Inductive exception :=
| ValueError
| TypeError
| KeyError
| DuplicateKeyError
| HTTPException (status_code : Z) (detail : string).

Inductive outcome (A : Type) :=
| Return (a : A)
| Raise (e : exception).
Arguments Return {A} a.
Arguments Raise {A} e.

(** Ordering of two [datetime] values.  Python refuses to order a naive
    value against an aware one ([TypeError]); two aware values are
    ordered by their UTC instants. *)
Definition datetime_cmp (a b : datetime) : outcome comparison :=
  match utcoffset a, utcoffset b with
  | None, None => Return (wall a ?= wall b)%Z
  | Some oa, Some ob => Return (wall a - oa ?= wall b - ob)%Z
  | _, _ => Raise TypeError
  end.

(** [a <= b] *)
Definition datetime_le (a b : datetime) : outcome bool :=
  match datetime_cmp a b with
  | Return Gt => Return false
  | Return _ => Return true
  | Raise e => Raise e
  end.

(** [a > b] *)
Definition datetime_gt (a b : datetime) : outcome bool :=
  match datetime_cmp a b with
  | Return Gt => Return true
  | Return _ => Return false
  | Raise e => Raise e
  end.

(** ** The library interface *)

Class Platform := {
  (** [ObjectId(s)] for a [str] argument; [None] when it raises. *)
  ObjectId_new : string → option ObjectId;
  (** [str(oid)] *)
  ObjectId_str : ObjectId → string;
  (** [ObjectId()]: the key generated for the [k]-th inserted document. *)
  ObjectId_generate : nat → ObjectId;
  (** [datetime.fromisoformat(s)] for a [str] argument; [None] when it
      raises [ValueError]. *)
  fromisoformat : string → option datetime;
  (** [datetime.now().isoformat()] at the [k]-th reading of the clock. *)
  now_isoformat : nat → string;
}.

(** ** A reference platform

    A small executable instance: identifiers of exactly 24 hexadecimal
    digits, and the naive forms [YYYY-MM-DD] and [YYYY-MM-DDTHH:MM:SS]
    of ISO-8601. *)
Module Reference.

Definition hex_digit (c : ascii) : option N :=
  let n := N_of_ascii c in
  if (48 <=? n)%N && (n <=? 57)%N then Some (n - 48)%N
  else if (97 <=? n)%N && (n <=? 102)%N then Some (n - 87)%N
  else if (65 <=? n)%N && (n <=? 70)%N then Some (n - 55)%N
  else None.

Fixpoint hex_value (acc : N) (s : string) : option N :=
  match s with
  | EmptyString => Some acc
  | String c r =>
      match hex_digit c with
      | Some d => hex_value (16 * acc + d)%N r
      | None => None
      end
  end.

Definition ObjectId_new (s : string) : option ObjectId :=
  if (String.length s =? 24)%nat then mkObjectId <$> hex_value 0 s else None.

Definition hex_char (d : N) : ascii :=
  if (d <? 10)%N then ascii_of_N (48 + d) else ascii_of_N (87 + d).

Fixpoint hex_string (digits : nat) (n : N) (acc : string) : string :=
  match digits with
  | O => acc
  | S k => hex_string k (n / 16)%N (String (hex_char (n mod 16)%N) acc)
  end.

Definition ObjectId_str (o : ObjectId) : string :=
  hex_string 24 (binary o) EmptyString.

Definition ObjectId_generate (k : nat) : ObjectId :=
  mkObjectId (0x665b2f000000000000000000 + N.of_nat k)%N.

Definition digit (c : ascii) : option Z :=
  let n := N_of_ascii c in
  if (48 <=? n)%N && (n <=? 57)%N then Some (Z.of_N (n - 48)) else None.

(** Reads [len] decimal digits at the head of [s]. *)
Fixpoint number (len : nat) (acc : Z) (s : string) : option (Z * string) :=
  match len, s with
  | O, _ => Some (acc, s)
  | S k, String c r =>
      match digit c with
      | Some d => number k (10 * acc + d)%Z r
      | None => None
      end
  | S _, EmptyString => None
  end.

Definition skip (c : ascii) (s : string) : option string :=
  match s with
  | String c' r => if Ascii.eqb c c' then Some r else None
  | EmptyString => None
  end.

Definition is_leap (y : Z) : bool :=
  ((y mod 4 =? 0) && (negb (y mod 100 =? 0) || (y mod 400 =? 0)))%Z.

Definition days_in_month (y m : Z) : Z :=
  if (m =? 2)%Z then (if is_leap y then 29 else 28)%Z
  else if ((m =? 4) || (m =? 6) || (m =? 9) || (m =? 11))%Z then 30%Z
  else 31%Z.

Fixpoint days_before_month (y : Z) (m : nat) : Z :=
  match m with
  | O => 0
  | S k => (days_before_month y k + days_in_month y (Z.of_nat m))%Z
  end.

(** The proleptic Gregorian ordinal of a date, 0001-01-01 being day 1. *)
Definition ymd2ord (y m d : Z) : Z :=
  let p := (y - 1)%Z in
  (p * 365 + p / 4 - p / 100 + p / 400
   + days_before_month y (Z.to_nat (m - 1)) + d)%Z.

Definition valid_date (y m d : Z) : bool :=
  ((1 <=? y) && (y <=? 9999) && (1 <=? m) && (m <=? 12)
   && (1 <=? d) && (d <=? days_in_month y m))%Z.

Definition valid_time (h mi s : Z) : bool :=
  ((h <? 24) && (mi <? 60) && (s <? 60))%Z.

Definition parse_date (s : string) : option (Z * Z * Z * string) :=
  '(y, s) ← number 4 0 s;
  s ← skip "-" s;
  '(m, s) ← number 2 0 s;
  s ← skip "-" s;
  '(d, s) ← number 2 0 s;
  if valid_date y m d then Some (y, m, d, s) else None.

Definition parse_time (s : string) : option (Z * Z * Z * string) :=
  '(h, s) ← number 2 0 s;
  s ← skip ":" s;
  '(mi, s) ← number 2 0 s;
  s ← skip ":" s;
  '(sec, s) ← number 2 0 s;
  if valid_time h mi sec then Some (h, mi, sec, s) else None.

Definition fromisoformat (s : string) : option datetime :=
  '(y, m, d, s) ← parse_date s;
  let day := (ymd2ord y m d - 1)%Z in
  match s with
  | EmptyString => Some (mkDatetime (day * 86400000000) None)
  | String _ s =>
      '(h, mi, sec, s) ← parse_time s;
      match s with
      | EmptyString =>
          Some (mkDatetime
                  ((day * 86400 + h * 3600 + mi * 60 + sec) * 1000000) None)
      | _ => None
      end
  end.

(** A clock that advances by one second per reading. *)
Definition now_isoformat (k : nat) : string :=
  match k with
  | 0 => "2024-06-01T12:00:00"
  | 1 => "2024-06-01T12:00:01"
  | 2 => "2024-06-01T12:00:02"
  | 3 => "2024-06-01T12:00:03"
  | _ => "2024-06-01T12:00:04"
  end.

Definition platform : Platform :=
  Build_Platform ObjectId_new ObjectId_str ObjectId_generate
                 fromisoformat now_isoformat.

End Reference.

(** ** The document store

    The part of the store's query language the handlers use.  A
    comparison operator with a string operand only matches string
    fields, which it orders byte-wise; equality with [None] also matches
    a missing field. *)
Inductive condition :=
| Op_eq (v : value)        (* {field: v} *)
| Op_gt (s : string)       (* {field: {"$gt": s}} *)
| Op_lte (s : string)      (* {field: {"$lte": s}} *)
| Op_exists (b : bool).    (* {field: {"$exists": b}} *)

#[local] Unset Elimination Schemes.
Inductive query :=
| All                                  (* {} *)
| Field (k : string) (c : condition)   (* {k: c} *)
| And (qs : list query)                (* {"$and": qs} *)
| Or (qs : list query).                (* {"$or": qs} *)
#[local] Set Elimination Schemes.

Definition holds (c : condition) (field : option value) : bool :=
  match c, field with
  | Op_eq VNull, None => true
  | Op_eq v, Some v' => bool_decide (v' = v)
  | Op_eq _, None => false
  | Op_gt s, Some (VStr t) => String.ltb s t
  | Op_gt _, _ => false
  | Op_lte s, Some (VStr t) => String.leb t s
  | Op_lte _, _ => false
  | Op_exists b, Some _ => b
  | Op_exists b, None => negb b
  end.

Fixpoint matches (q : query) (d : Doc) {struct q} : bool :=
  match q with
  | All => true
  | Field k c => holds c (d !! k)
  | And qs => forallb (fun q' => matches q' d) qs
  | Or qs => existsb (fun q' => matches q' d) qs
  end.

(** The state the handlers run against: the collection in insertion
    order, and how often the clock and the key generator were used. *)
Record World := mkWorld {
  announcements_collection : list Doc;
  clock_reads : nat;
  ids_issued : nat;
}.

(** Handlers are computations that may change the world and may raise. *)
Definition Handler (A : Type) : Type := World → outcome A * World.

Global Instance Handler_ret : MRet Handler := fun A a w => (Return a, w).

Global Instance Handler_bind : MBind Handler := fun A B k c w =>
  match c w with
  | (Return a, w') => k a w'
  | (Raise e, w') => (Raise e, w')
  end.

Definition raise {A} (e : exception) : Handler A := fun w => (Raise e, w).

(** [try: body  except ValueError: handler] *)
Definition except_ValueError {A} (body handler : Handler A) : Handler A :=
  fun w =>
    match body w with
    | (Raise ValueError, w') => handler w'
    | r => r
    end.

(** Rewrites the collection, leaving the counters alone. *)
Definition with_collection (w : World) (c : list Doc) : World :=
  mkWorld c (clock_reads w) (ids_issued w).

(** [collection.find(q)], read to the end by [list(...)]. *)
Definition find (q : query) : Handler (list Doc) := fun w =>
  (Return (List.filter (matches q) (announcements_collection w)), w).

(** [collection.find_one(q)] *)
Definition find_one (q : query) : Handler (option Doc) := fun w =>
  (Return (List.find (matches q) (announcements_collection w)), w).

(** [collection.update_one(q, {"$set": fields})] on the first match;
    the number is [matched_count]. *)
Fixpoint set_first (q : query) (fields : Doc) (c : list Doc) : nat * list Doc :=
  match c with
  | [] => (0, [])
  | d :: r =>
      if matches q d then (1, (fields ∪ d) :: r)
      else let '(n, r') := set_first q fields r in (n, d :: r')
  end.

Definition update_one (q : query) (fields : Doc) : Handler nat := fun w =>
  let '(n, c) := set_first q fields (announcements_collection w) in
  (Return n, with_collection w c).

(** [collection.delete_one(q)]; the number is [deleted_count]. *)
Fixpoint drop_first (q : query) (c : list Doc) : nat * list Doc :=
  match c with
  | [] => (0, [])
  | d :: r =>
      if matches q d then (1, r)
      else let '(n, r') := drop_first q r in (n, d :: r')
  end.

Definition delete_one (q : query) : Handler nat := fun w =>
  let '(n, c) := drop_first q (announcements_collection w) in
  (Return n, with_collection w c).

(** ** The handlers *)

Section Handlers.
Context `{Platform}.

(** [datetime.now().isoformat()] *)
Definition datetime_now_isoformat : Handler string := fun w =>
  (Return (now_isoformat (clock_reads w)),
   mkWorld (announcements_collection w) (S (clock_reads w)) (ids_issued w)).

(** [datetime.fromisoformat(x)]: [TypeError] unless [x] is a string,
    [ValueError] when the string does not parse. *)
Definition datetime_fromisoformat (x : value) : Handler datetime :=
  match x with
  | VStr s =>
      match fromisoformat s with
      | Some dt => mret dt
      | None => raise ValueError
      end
  | _ => raise TypeError
  end.

(** [a <= b] on [datetime] values *)
Definition le_datetime (a b : datetime) : Handler bool := fun w =>
  (datetime_le a b, w).

(** [str(x)] *)
Definition str (x : value) : string :=
  match x with
  | VNull => "None"
  | VStr s => s
  | VOid o => ObjectId_str o
  end.

(** [d.get(k)]: [None] for a missing key. *)
Definition get (d : Doc) (k : string) : value := default VNull (d !! k).

(** [d.get(k, fallback)] *)
Definition get_or (d : Doc) (k : string) (fallback : value) : value :=
  default fallback (d !! k).

(** [collection.insert_one(document)]: the store assigns a generated
    key when the document has none, and refuses a key already in use.
    The result is [inserted_id]. *)
Definition insert_one (document : Doc) : Handler value := fun w =>
  let '(key, w1) :=
    match document !! "_id" with
    | Some v => (v, w)
    | None =>
        (VOid (ObjectId_generate (ids_issued w)),
         mkWorld (announcements_collection w) (clock_reads w)
                 (S (ids_issued w)))
    end in
  if existsb (matches (Field "_id" (Op_eq key))) (announcements_collection w1)
  then (Raise DuplicateKeyError, w1)
  else (Return key,
        with_collection w1
          (announcements_collection w1 ++ [<["_id" := key]> document])).

(** The loop
    [for a in announcements: if "_id" in a: a["_id"] = str(a["_id"])] *)
Definition stringify_id (announcement : Doc) : Doc :=
  match announcement !! "_id" with
  | Some v => <["_id" := VStr (str v)]> announcement
  | None => announcement
  end.

Definition get_announcements (include_expired : bool)
  : Handler (list Doc) :=
  now ← datetime_now_isoformat;
  announcements ←
    (if include_expired then find All
     else find (Field "expiration_date" (Op_gt now)));
  mret (stringify_id <$> announcements).

Definition get_active_announcements : Handler (list Doc) :=
  now ← datetime_now_isoformat;
  announcements ←
    find (And [ Or [ Field "start_date" (Op_lte now);
                     Field "start_date" (Op_exists false);
                     Field "start_date" (Op_eq VNull) ];
                Field "expiration_date" (Op_gt now) ]);
  mret (stringify_id <$> announcements).

(** [not start_date] for an [Optional[str]] *)
Definition falsy (s : option string) : bool :=
  match s with
  | None => true
  | Some s => bool_decide (s = "")
  end.

(** The dictionary literal [new_announcement = {...}] of create. *)
Definition new_announcement
    (title message start_date expiration_date created_at : string) : Doc :=
  <["created_at" := VStr created_at]>
    (<["expiration_date" := VStr expiration_date]>
       (<["start_date" := VStr start_date]>
          (<["message" := VStr message]>
             (<["title" := VStr title]> ∅)))).

Definition create_announcement
    (title message expiration_date : string) (start_date : option string)
  : Handler Doc :=
  start_date ←
    (if falsy start_date then datetime_now_isoformat
     else mret (default "" start_date));
  '(start_dt, expiry_dt) ←
    except_ValueError
      (start_dt ← datetime_fromisoformat (VStr start_date);
       expiry_dt ← datetime_fromisoformat (VStr expiration_date);
       mret (start_dt, expiry_dt))
      (raise (HTTPException 400 "Invalid date format"));
  too_early ← le_datetime expiry_dt start_dt;
  if (too_early : bool) then
    raise (HTTPException 400 "Expiration date must be after start date")
  else
    created_at ← datetime_now_isoformat;
    let new_announcement :=
      new_announcement title message start_date expiration_date created_at in
    inserted_id ← insert_one new_announcement;
    mret (<["_id" := VStr (str inserted_id)]> new_announcement).

(** [if x is not None: update_data[k] = x] *)
Definition set_if_given (k : string) (x : option string) (update_data : Doc)
  : Doc :=
  match x with
  | Some v => <[k := VStr v]> update_data
  | None => update_data
  end.

Definition build_update_data
    (title message expiration_date start_date : option string) : Doc :=
  set_if_given "start_date" start_date
    (set_if_given "expiration_date" expiration_date
       (set_if_given "message" message
          (set_if_given "title" title ∅))).

(** [ObjectId(announcement_id)] under [except Exception] *)
Definition parse_id (announcement_id : string) : Handler ObjectId :=
  match ObjectId_new announcement_id with
  | Some obj_id => mret obj_id
  | None => raise (HTTPException 400 "Invalid announcement ID")
  end.

(** The filter [{"_id": obj_id}] *)
Definition by_id (obj_id : ObjectId) : query :=
  Field "_id" (Op_eq (VOid obj_id)).

(** The block under [# Validate dates if provided] *)
Definition validate_dates (obj_id : ObjectId) (update_data : Doc)
  : Handler unit :=
  announcement ← find_one (by_id obj_id);
  match announcement with
  | None => raise (HTTPException 404 "Announcement not found")
  | Some announcement =>
      if bool_decide (announcement = ∅) then
        raise (HTTPException 404 "Announcement not found")
      else
        let start_dt_str :=
          get_or update_data "start_date" (get announcement "start_date") in
        let expiry_dt_str :=
          get_or update_data "expiration_date"
                 (get announcement "expiration_date") in
        '(start_dt, expiry_dt) ←
          except_ValueError
            (start_dt ← datetime_fromisoformat start_dt_str;
             expiry_dt ← datetime_fromisoformat expiry_dt_str;
             mret (start_dt, expiry_dt))
            (raise (HTTPException 400 "Invalid date format"));
        too_early ← le_datetime expiry_dt start_dt;
        if (too_early : bool) then
          raise (HTTPException 400 "Expiration date must be after start date")
        else mret ()
  end.

Definition update_announcement
    (announcement_id : string)
    (title message expiration_date start_date : option string)
  : Handler Doc :=
  obj_id ← parse_id announcement_id;
  let update_data :=
    build_update_data title message expiration_date start_date in
  if bool_decide (update_data = ∅) then
    raise (HTTPException 400 "No fields to update")
  else
    _ ← (if bool_decide (is_Some (update_data !! "start_date"))
            || bool_decide (is_Some (update_data !! "expiration_date"))
         then validate_dates obj_id update_data
         else mret ());
    matched_count ← update_one (by_id obj_id) update_data;
    if (matched_count =? 0)%nat then
      raise (HTTPException 404 "Announcement not found")
    else
      updated_announcement ← find_one (by_id obj_id);
      match updated_announcement with
      | None => raise TypeError
      | Some updated_announcement =>
          match updated_announcement !! "_id" with
          | None => raise KeyError
          | Some v =>
              mret (<["_id" := VStr (str v)]> updated_announcement)
          end
      end.

Definition delete_announcement (announcement_id : string)
  : Handler (gmap string string) :=
  obj_id ← parse_id announcement_id;
  deleted_count ← delete_one (by_id obj_id);
  if (deleted_count =? 0)%nat then
    raise (HTTPException 404 "Announcement not found")
  else mret {[ "message" := "Announcement deleted successfully" ]}.

End Handlers.


(** ** What the specification says, in its own words *)

Section Specification.
Context `{Platform}.

(** [expiration_date > now]: the field is a string that the store
    orders after the ISO rendering of the current instant. *)
Definition expires_after (now : string) (d : Doc) : Prop :=
  match d !! "expiration_date" with
  | Some (VStr e) => String.compare now e = Lt
  | _ => False
  end.

(** [start_date] is absent, or null, or [start_date <= now]. *)
Definition started_by (now : string) (d : Doc) : Prop :=
  match d !! "start_date" with
  | None => True
  | Some VNull => True
  | Some (VStr s) => String.compare s now ≠ Gt
  | Some (VOid _) => False
  end.

Definition active (now : string) (d : Doc) : Prop :=
  started_by now d ∧ expires_after now d.

Global Instance comparison_eq_dec : EqDecision comparison.
Proof. solve_decision. Defined.

Global Instance expires_after_dec now d : Decision (expires_after now d).
Proof.
  unfold expires_after.
  destruct (d !! "expiration_date") as [[| e |]|]; apply _.
Defined.

Global Instance started_by_dec now d : Decision (started_by now d).
Proof.
  unfold started_by.
  destruct (d !! "start_date") as [[| s |]|]; apply _.
Defined.

Global Instance active_dec now d : Decision (active now d).
Proof. unfold active. apply _. Defined.

(** The invariant of the data model: both dates are stored, both
    parse, and the parsed expiration is after the parsed start. *)
Definition dates_ordered (d : Doc) : Prop :=
  ∃ s e ds de,
    d !! "start_date" = Some (VStr s) ∧
    d !! "expiration_date" = Some (VStr e) ∧
    fromisoformat s = Some ds ∧
    fromisoformat e = Some de ∧
    datetime_gt de ds = Return true.

(** The value an update call supplies for field [k], if any. *)
Definition supplied
    (title message expiration_date start_date : option string)
    (k : string) : option string :=
  if decide (k = "start_date") then start_date
  else if decide (k = "expiration_date") then expiration_date
  else if decide (k = "message") then message
  else if decide (k = "title") then title
  else None.

(** The record with key [o] that the store finds first: [d], between
    [before] and [after]. *)
Definition located (o : ObjectId) (c before : list Doc) (d : Doc)
    (after : list Doc) : Prop :=
  c = before ++ d :: after ∧
  d !! "_id" = Some (VOid o) ∧
  Forall (fun x => x !! "_id" ≠ Some (VOid o)) before.

(** The keys of the collection, record by record. *)
Definition keys (c : list Doc) : list (option value) :=
  (fun d : Doc => d !! "_id") <$> c.

(** The value update checks for a date field: the supplied one, or
    else the one the record holds. *)
Definition merged (given : option string) (d : Doc) (k : string) : value :=
  match given with
  | Some x => VStr x
  | None => get d k
  end.

(** No record has key [o]. *)
Definition absent (o : ObjectId) (c : list Doc) : Prop :=
  Forall (fun x => x !! "_id" ≠ Some (VOid o)) c.

(** The start date create works with: the supplied one, or the
    current instant when none or an empty one is supplied. *)
Definition effective_start (start_date : option string) (now : string)
  : string :=
  match start_date with
  | Some s => if decide (s = "") then now else s
  | None => now
  end.

(** The verdict of the date checks of create and update on a start and
    an expiration value: parse the start, parse the expiration, order
    them. *)
Definition date_verdict (start_dt_str expiry_dt_str : value)
  : outcome unit :=
  match start_dt_str with
  | VStr s =>
      match fromisoformat s with
      | None => Raise (HTTPException 400 "Invalid date format")
      | Some ds =>
          match expiry_dt_str with
          | VStr e =>
              match fromisoformat e with
              | None => Raise (HTTPException 400 "Invalid date format")
              | Some de =>
                  match datetime_le de ds with
                  | Return true =>
                      Raise (HTTPException 400
                               "Expiration date must be after start date")
                  | Return false => Return ()
                  | Raise x => Raise x
                  end
              end
          | _ => Raise TypeError
          end
      end
  | _ => Raise TypeError
  end.

(** The requests the router serves, and the worlds they lead to. *)
Inductive request :=
| GET_announcements (include_expired : bool)
| GET_active
| POST_announcement (title message expiration_date : string)
                    (start_date : option string)
| PUT_announcement (announcement_id : string)
                   (title message expiration_date start_date : option string)
| DELETE_announcement (announcement_id : string).

Definition serve (r : request) (w : World) : World :=
  match r with
  | GET_announcements b => (get_announcements b w).2
  | GET_active => (get_active_announcements w).2
  | POST_announcement t m e s => (create_announcement t m e s w).2
  | PUT_announcement i t m e s => (update_announcement i t m e s w).2
  | DELETE_announcement i => (delete_announcement i w).2
  end.

Inductive reachable : World → Prop :=
| reachable_empty k i : reachable (mkWorld [] k i)
| reachable_serve r w : reachable w → reachable (serve r w).

(** The rejection rule of create read literally: a supplied start
    date or the expiration date does not parse, or the parsed
    expiration is not after the parsed start. *)
Definition create_rejects_literally : Prop :=
  ∀ title message expiration_date start_date w,
    (∃ s, start_date = Some s ∧ fromisoformat s = None) ∨
    fromisoformat expiration_date = None ∨
    (∃ s ds de, start_date = Some s ∧ fromisoformat s = Some ds ∧
                fromisoformat expiration_date = Some de ∧
                datetime_le de ds = Return true) →
    ∃ detail,
      (create_announcement title message expiration_date start_date w).1
        = Raise (HTTPException 400 detail) ∧
      announcements_collection
        (create_announcement title message expiration_date start_date w).2
        = announcements_collection w.

(** The error rule of update read literally, each case on its own. *)
Definition update_errors_literally : Prop :=
  ∀ announcement_id title message expiration_date start_date w,
    let r := (update_announcement announcement_id title message
                                  expiration_date start_date w).1 in
    (ObjectId_new announcement_id = None →
     ∃ detail, r = Raise (HTTPException 400 detail)) ∧
    (title = None → message = None → expiration_date = None →
     start_date = None →
     ∃ detail, r = Raise (HTTPException 400 detail)) ∧
    (∀ o, ObjectId_new announcement_id = Some o →
          absent o (announcements_collection w) →
          ∃ detail, r = Raise (HTTPException 404 detail)).

End Specification.

(** ** The time window read as instants

    The listing rules of the specification with every date parsed and
    compared as a [datetime], the way create and update compare them. *)

Section Instants.
Context `{Platform}.





End Instants.

(** ** A concrete scenario on the reference platform *)
Module Scenario.

Definition exam_id : ObjectId := mkObjectId 0x665b2f000000000000000000.

Definition exam : Doc :=
  <["_id" := VOid exam_id]>
    (<["created_at" := VStr "2024-06-01T12:00:00"]>
       (<["expiration_date" := VStr "2099-01-01T00:00:00"]>
          (<["start_date" := VStr "2024-01-01T00:00:00"]>
             (<["message" := VStr "Finals week"]>
                (<["title" := VStr "Exam"]> ∅))))).

(** A record seeded without a start date. *)
Definition notice_id : ObjectId := mkObjectId 0x665b2f0000000000000000ff.

Definition notice : Doc :=
  <["_id" := VOid notice_id]>
    (<["expiration_date" := VStr "2099-01-01T00:00:00"]>
       (<["message" := VStr "Library closed"]>
          (<["title" := VStr "Notice"]> ∅))).

(** Records on the boundary of the active window at the second
    reading of the reference clock. *)
Definition starting_now : Doc :=
  <["_id" := VOid (mkObjectId 0x665b2f000000000000000010)]>
    (<["expiration_date" := VStr "2099-01-01T00:00:00"]>
       (<["start_date" := VStr "2024-06-01T12:00:01"]> ∅)).

Definition expiring_now : Doc :=
  <["_id" := VOid (mkObjectId 0x665b2f000000000000000011)]>
    (<["expiration_date" := VStr "2024-06-01T12:00:01"]>
       (<["start_date" := VStr "2024-01-01T00:00:00"]> ∅)).

(** A record seeded with its expiration before its start. *)
Definition backwards_id : ObjectId := mkObjectId 0x665b2f000000000000000020.

Definition backwards : Doc :=
  <["_id" := VOid backwards_id]>
    (<["expiration_date" := VStr "2024-01-01T00:00:00"]>
       (<["start_date" := VStr "2024-06-01T00:00:00"]>
          (<["title" := VStr "Fair"]> ∅))).

Definition empty_world : World := mkWorld [] 0 0.
Definition exam_world : World := mkWorld [exam] 1 1.
Definition world : World := mkWorld [exam; notice] 1 1.
Definition boundary_world : World :=
  mkWorld [starting_now; expiring_now; exam] 1 1.

(** [exam] as the handlers return it. *)
Definition exam_shown : Doc :=
  <["_id" := VStr "665b2f000000000000000000"]> exam.

End Scenario.

(** ** The shape of the records the router stores *)

(** The fields create writes as text. *)
Definition text_fields : list string :=
  ["title"; "message"; "start_date"; "expiration_date"; "created_at"].

(** A record as create stores it: an [ObjectId] key, the five text
    fields, and nothing else. *)
Definition router_record (d : Doc) : Prop :=
  (∃ o, d !! "_id" = Some (VOid o)) ∧
  (∀ k, k ∈ text_fields → ∃ s, d !! k = Some (VStr s)) ∧
  (∀ k, is_Some (d !! k) → k = "_id" ∨ k ∈ text_fields).

(** One of two parsed dates is naive and the other aware. *)
Definition mixed_awareness (a b : datetime) : Prop :=
  (utcoffset a = None ∧ is_Some (utcoffset b)) ∨
  (is_Some (utcoffset a) ∧ utcoffset b = None).

(** ** A platform with aware dates

    The reference platform, its parser extended with the aware form
    [YYYY-MM-DDTHH:MM:SS+HH:MM] (or [-HH:MM]). *)
Module Offsets.

Definition parse_offset (s : string) : option Z :=
  match s with
  | String sign r =>
      '(h, r) ← Reference.number 2 0 r;
      r ← Reference.skip ":" r;
      '(m, r) ← Reference.number 2 0 r;
      match r with
      | EmptyString =>
          let off := ((h * 3600 + m * 60) * 1000000)%Z in
          if negb ((h <? 24) && (m <? 60))%Z then None
          else if Ascii.eqb sign "+" then Some off
          else if Ascii.eqb sign "-" then Some (- off)%Z
          else None
      | _ => None
      end
  | EmptyString => None
  end.

Definition fromisoformat (s : string) : option datetime :=
  if (String.length s =? 25)%nat then
    dt ← Reference.fromisoformat (String.substring 0 19 s);
    off ← parse_offset (String.substring 19 6 s);
    Some (mkDatetime (wall dt) (Some off))
  else Reference.fromisoformat s.

Definition platform : Platform :=
  Build_Platform Reference.ObjectId_new Reference.ObjectId_str
                 Reference.ObjectId_generate fromisoformat
                 Reference.now_isoformat.

End Offsets.

(** ** Dates in other layouts

    Worlds the router reaches on the reference platform by one create
    each, with a date written with another separator than the clock's
    ["T"]. *)
Module Layouts.







End Layouts.

(** ** Properties *)

Section Properties.
Context `{Platform}.

(** *** The store *)


Lemma bind_run {A B} (c : Handler A) (k : A → Handler B) (w : World) :
  (c ≫= k) w = match c w with
                | (Return a, w') => k a w'
                | (Raise e, w') => (Raise e, w')
                end.
Proof. reflexivity. Qed.

Lemma filter_reflect (f : Doc → bool) (P : Doc → Prop)
    `{∀ d, Decision (P d)} (l : list Doc) :
  (∀ d, f d = true ↔ P d) → List.filter f l = filter P l.
Proof.
  intros Hf. induction l as [|d l IH]; [done|].
  simpl. rewrite filter_cons, IH.
  destruct (f d) eqn:E, (decide (P d)) as [Hp|Hp]; try done.
  - apply Hf in E. done.
  - apply Hf in Hp. congruence.
Qed.

Lemma find_everything (l : list Doc) : List.filter (matches All) l = l.
Proof. induction l as [|d l IH]; [done|]. simpl. f_equal. exact IH. Qed.

Lemma matches_expiring (now : string) (d : Doc) :
  matches (Field "expiration_date" (Op_gt now)) d = true
  ↔ expires_after now d.
Proof.
  unfold expires_after. simpl.
  destruct (d !! "expiration_date") as [[| e |]|]; simpl; try done.
  unfold String.ltb. destruct (String.compare now e); done.
Qed.

Lemma matches_active (now : string) (d : Doc) :
  matches (And [ Or [ Field "start_date" (Op_lte now);
                      Field "start_date" (Op_exists false);
                      Field "start_date" (Op_eq VNull) ];
                 Field "expiration_date" (Op_gt now) ]) d = true
  ↔ active now d.
Proof.
  unfold active. rewrite <- matches_expiring.
  cbn [matches forallb existsb]. rewrite andb_true_r, orb_false_r.
  rewrite andb_true_iff. apply and_iff_compat_r.
  unfold started_by. simpl.
  destruct (d !! "start_date") as [[| s |]|]; simpl; try done.
  unfold String.leb. destruct (String.compare s now); simpl; split; done.
Qed.

Lemma stringify_id_other (d : Doc) (k : string) :
  k ≠ "_id" → stringify_id d !! k = d !! k.
Proof.
  intros Hk. unfold stringify_id.
  destruct (d !! "_id"); [|done]. by rewrite lookup_insert_ne.
Qed.

(** *** Listing *)



(** *** Records located by key *)

Lemma matches_by_id (o : ObjectId) (d : Doc) :
  matches (by_id o) d = true ↔ d !! "_id" = Some (VOid o).
Proof.
  simpl. destruct (d !! "_id") as [v|]; simpl.
  - rewrite bool_decide_eq_true. split; congruence.
  - split; discriminate.
Qed.

Lemma mismatches_by_id (o : ObjectId) (d : Doc) :
  matches (by_id o) d = false ↔ d !! "_id" ≠ Some (VOid o).
Proof.
  rewrite <- matches_by_id. destruct (matches (by_id o) d); split; congruence.
Qed.

Lemma located_or_absent (o : ObjectId) (c : list Doc) :
  absent o c ∨ ∃ before d after, located o c before d after.
Proof.
  induction c as [|x c IH].
  - left. constructor.
  - destruct (decide (x !! "_id" = Some (VOid o))) as [Hx|Hx].
    + right. exists [], x, c. repeat split; [done|constructor].
    + destruct IH as [IH | (l1 & d & l2 & -> & Hd & Hl1)].
      * left. by constructor.
      * right. exists (x :: l1), d, l2. repeat split; [done|by constructor].
Qed.

Lemma located_not_absent (o : ObjectId) (c before after : list Doc) (d : Doc) :
  located o c before d after → ¬ absent o c.
Proof.
  intros (-> & Hd & _) Habs. unfold absent in Habs.
  rewrite Forall_app, Forall_cons in Habs. tauto.
Qed.

Section Located.
Variables (o : ObjectId) (c before after : list Doc) (d : Doc).
Hypothesis Hloc : located o c before d after.

Lemma find_located : List.find (matches (by_id o)) c = Some d.
Proof.
  destruct Hloc as (-> & Hd & Hb). clear Hloc.
  induction Hb as [|x l Hx _ IH]; simpl.
  - apply matches_by_id in Hd. unfold by_id in Hd. simpl in Hd.
    by rewrite Hd.
  - apply mismatches_by_id in Hx. unfold by_id in Hx. simpl in Hx.
    by rewrite Hx.
Qed.

Lemma set_first_located (fields : Doc) :
  set_first (by_id o) fields c = (1, before ++ (fields ∪ d) :: after).
Proof.
  destruct Hloc as (-> & Hd & Hb). clear Hloc.
  induction Hb as [|x l Hx _ IH]; cbn [set_first app].
  - apply matches_by_id in Hd. by rewrite Hd.
  - apply mismatches_by_id in Hx. by rewrite Hx, IH.
Qed.

Lemma drop_first_located :
  drop_first (by_id o) c = (1, before ++ after).
Proof.
  destruct Hloc as (-> & Hd & Hb). clear Hloc.
  induction Hb as [|x l Hx _ IH]; cbn [drop_first app].
  - apply matches_by_id in Hd. by rewrite Hd.
  - apply mismatches_by_id in Hx. by rewrite Hx, IH.
Qed.
End Located.

Lemma find_absent (o : ObjectId) (c : list Doc) :
  absent o c → List.find (matches (by_id o)) c = None.
Proof.
  induction 1 as [|x l Hx _ IH]; [done|].
  apply mismatches_by_id in Hx. cbn [List.find]. by rewrite Hx.
Qed.

Lemma set_first_absent (o : ObjectId) (c : list Doc) (fields : Doc) :
  absent o c → set_first (by_id o) fields c = (0, c).
Proof.
  induction 1 as [|x l Hx _ IH]; [done|]. cbn [set_first].
  apply mismatches_by_id in Hx. by rewrite Hx, IH.
Qed.

Lemma drop_first_absent (o : ObjectId) (c : list Doc) :
  absent o c → drop_first (by_id o) c = (0, c).
Proof.
  induction 1 as [|x l Hx _ IH]; [done|]. cbn [drop_first].
  apply mismatches_by_id in Hx. by rewrite Hx, IH.
Qed.

Lemma existsb_absent (o : ObjectId) (c : list Doc) :
  existsb (matches (by_id o)) c = false → absent o c.
Proof.
  induction c as [|x c IH]; [constructor|]. cbn [existsb].
  rewrite orb_false_iff. intros [Hx Hc]. constructor; [|by apply IH].
  by apply mismatches_by_id.
Qed.

Lemma absent_keys (o : ObjectId) (c : list Doc) :
  absent o c ↔ Some (VOid o) ∉ keys c.
Proof.
  unfold absent, keys. rewrite list_elem_of_fmap, Forall_forall. split.
  - intros Hc (d & Hk & Hd). by apply (Hc d).
  - intros Hn d Hd Hk. apply Hn. eauto.
Qed.

Lemma with_collection_same (w : World) :
  with_collection w (announcements_collection w) = w.
Proof. by destruct w. Qed.

(** *** The update dictionary *)

Lemma update_data_lookup
    (title message expiration_date start_date : option string) (k : string) :
  build_update_data title message expiration_date start_date !! k
  = VStr <$> supplied title message expiration_date start_date k.
Proof.
  unfold build_update_data, supplied, set_if_given.
  destruct start_date, expiration_date, message, title;
    repeat case_decide; subst; simplify_map_eq; done.
Qed.

Lemma update_data_empty
    (title message expiration_date start_date : option string) :
  build_update_data title message expiration_date start_date = ∅
  ↔ title = None ∧ message = None ∧ expiration_date = None
    ∧ start_date = None.
Proof.
  split.
  - intros E.
    pose proof (update_data_lookup title message expiration_date start_date
                                   "title") as Ht.
    pose proof (update_data_lookup title message expiration_date start_date
                                   "message") as Hm.
    pose proof (update_data_lookup title message expiration_date start_date
                                   "expiration_date") as He.
    pose proof (update_data_lookup title message expiration_date start_date
                                   "start_date") as Hs.
    rewrite E, lookup_empty in Ht, Hm, He, Hs.
    unfold supplied in *. simpl in *.
    destruct title, message, expiration_date, start_date; done.
  - by intros (-> & -> & -> & ->).
Qed.

Lemma update_data_no_id
    (title message expiration_date start_date : option string) (d : Doc) :
  (build_update_data title message expiration_date start_date ∪ d) !! "_id"
  = d !! "_id".
Proof.
  apply lookup_union_r. rewrite update_data_lookup. done.
Qed.

Lemma dates_supplied
    (title message expiration_date start_date : option string) :
  let update_data :=
    build_update_data title message expiration_date start_date in
  bool_decide (is_Some (update_data !! "start_date"))
  || bool_decide (is_Some (update_data !! "expiration_date"))
  = bool_decide (is_Some start_date ∨ is_Some expiration_date).
Proof.
  simpl. rewrite !update_data_lookup. unfold supplied. simpl.
  destruct start_date, expiration_date; simpl;
    repeat (rewrite bool_decide_eq_true_2 by eauto);
    repeat (rewrite bool_decide_eq_false_2
              by (rewrite <- ?not_eq_None_Some; intros []; try done;
                  by apply is_Some_None in H0));
    done.
Qed.

(** *** Running update *)

Lemma validate_dates_located
    (o : ObjectId) (update_data : Doc) (w : World)
    (before after : list Doc) (d : Doc) :
  located o (announcements_collection w) before d after →
  validate_dates o update_data w
  = (date_verdict
       (get_or update_data "start_date" (get d "start_date"))
       (get_or update_data "expiration_date" (get d "expiration_date")),
     w).
Proof.
  intros Hloc. unfold validate_dates, find_one. rewrite bind_run.
  rewrite (find_located _ _ _ _ _ Hloc).
  rewrite bool_decide_eq_false_2.
  2:{ intros ->. destruct Hloc as (_ & Hd & _). by rewrite lookup_empty in Hd. }
  unfold date_verdict, except_ValueError, datetime_fromisoformat,
    le_datetime.
  destruct (get_or update_data "start_date" (get d "start_date"))
    as [| s |]; try reflexivity.
  destruct (fromisoformat s) as [ds|]; [|reflexivity].
  destruct (get_or update_data "expiration_date" (get d "expiration_date"))
    as [| e |]; try reflexivity.
  destruct (fromisoformat e) as [de|]; [|reflexivity].
  cbv [mbind mret Handler_bind Handler_ret raise].
  destruct (datetime_le de ds) as [[]|]; reflexivity.
Qed.

Lemma validate_dates_absent (o : ObjectId) (update_data : Doc) (w : World) :
  absent o (announcements_collection w) →
  validate_dates o update_data w
  = (Raise (HTTPException 404 "Announcement not found"), w).
Proof.
  intros Habs. unfold validate_dates, find_one. rewrite bind_run.
  by rewrite (find_absent _ _ Habs).
Qed.

Section Update.
Variables (announcement_id : string) (o : ObjectId).
Variables (title message expiration_date start_date : option string).
Variable (w : World).
Hypothesis Hid : ObjectId_new announcement_id = Some o.
Hypothesis Hgiven :
  ¬ (title = None ∧ message = None ∧ expiration_date = None
     ∧ start_date = None).

Let update_data :=
  build_update_data title message expiration_date start_date.

Lemma update_absent :
  absent o (announcements_collection w) →
  update_announcement announcement_id title message expiration_date
                      start_date w
  = (Raise (HTTPException 404 "Announcement not found"), w).
Proof using Hid Hgiven.
  intros Habs. unfold update_announcement, parse_id.
  rewrite Hid, bind_run. cbn [mret Handler_ret].
  rewrite bool_decide_eq_false_2 by (by rewrite update_data_empty).
  rewrite bind_run.
  destruct (_ || _).
  - by rewrite validate_dates_absent.
  - cbn [mret Handler_ret]. unfold update_one. rewrite bind_run.
    rewrite (set_first_absent _ _ _ Habs). simpl.
    by rewrite with_collection_same.
Qed.

Lemma update_located (before after : list Doc) (d : Doc) :
  located o (announcements_collection w) before d after →
  update_announcement announcement_id title message expiration_date
                      start_date w
  = match
      (if bool_decide (is_Some start_date ∨ is_Some expiration_date)
       then date_verdict
              (get_or update_data "start_date" (get d "start_date"))
              (get_or update_data "expiration_date"
                      (get d "expiration_date"))
       else Return ())
    with
    | Return _ =>
        (Return (<["_id" := VStr (ObjectId_str o)]> (update_data ∪ d)),
         with_collection w (before ++ (update_data ∪ d) :: after))
    | Raise e => (Raise e, w)
    end.
Proof using Hid Hgiven.
  intros Hloc. unfold update_announcement, parse_id.
  rewrite Hid, bind_run. cbn [mret Handler_ret].
  rewrite bool_decide_eq_false_2 by (by rewrite update_data_empty).
  rewrite bind_run, dates_supplied. fold update_data.
  assert (Hwrite :
    (update_one (by_id o) update_data ≫= λ matched_count,
       if (matched_count =? 0)%nat
       then raise (HTTPException 404 "Announcement not found")
       else find_one (by_id o) ≫= λ updated_announcement,
         match updated_announcement with
         | None => raise TypeError
         | Some u =>
             match u !! "_id" with
             | None => raise KeyError
             | Some v => mret (<["_id" := VStr (str v)]> u)
             end
         end) w
    = (Return (<["_id" := VStr (ObjectId_str o)]> (update_data ∪ d)),
       with_collection w (before ++ (update_data ∪ d) :: after))).
  { unfold update_one. rewrite bind_run.
    rewrite (set_first_located _ _ _ _ _ Hloc). cbn [Nat.eqb].
    unfold find_one. rewrite bind_run.
    cbn [announcements_collection with_collection].
    assert (Hloc' : located o (before ++ (update_data ∪ d) :: after)
                      before (update_data ∪ d) after).
    { destruct Hloc as (_ & Hd & Hb). repeat split; [|done].
      subst update_data. by rewrite update_data_no_id. }
    rewrite (find_located _ _ _ _ _ Hloc').
    destruct Hloc' as (_ & -> & _). done. }
  destruct (bool_decide (is_Some start_date ∨ is_Some expiration_date)).
  - rewrite (validate_dates_located _ _ _ _ _ _ Hloc).
    destruct (date_verdict _ _); [|done]. exact Hwrite.
  - cbn [mret Handler_ret]. exact Hwrite.
Qed.
End Update.

(** *** Running create *)

Lemma date_verdict_ordered (s e : string) :
  date_verdict (VStr s) (VStr e) = Return () →
  ∃ ds de, fromisoformat s = Some ds ∧ fromisoformat e = Some de ∧
           datetime_gt de ds = Return true.
Proof.
  unfold date_verdict, datetime_le, datetime_gt.
  destruct (fromisoformat s) as [ds|]; [|done].
  destruct (fromisoformat e) as [de|]; [|done].
  intros Hv. exists ds, de. repeat split.
  destruct (datetime_cmp de ds) as [[]|]; done.
Qed.

Lemma new_announcement_keyless
    (title message start_date expiration_date created_at : string) :
  new_announcement title message start_date expiration_date created_at
    !! "_id" = None.
Proof. unfold new_announcement. by simplify_map_eq. Qed.

Lemma insert_one_keyless (document : Doc) (w : World) :
  document !! "_id" = None →
  insert_one document w
  = let key := VOid (ObjectId_generate (ids_issued w)) in
    let w1 := mkWorld (announcements_collection w) (clock_reads w)
                      (S (ids_issued w)) in
    if existsb (matches (Field "_id" (Op_eq key))) (announcements_collection w)
    then (Raise DuplicateKeyError, w1)
    else (Return key,
          with_collection w1
            (announcements_collection w ++ [<["_id" := key]> document])).
Proof. intros Hk. unfold insert_one. by rewrite Hk. Qed.

Section Create.
Variables (title message expiration_date : string).
Variables (start_date : option string) (w : World).

Let now := now_isoformat (clock_reads w).
Let start := effective_start start_date now.
Let result :=
  create_announcement title message expiration_date start_date w.

Lemma falsy_effective_start :
  (if falsy start_date then now else default "" start_date) = start.
Proof.
  subst start. unfold falsy, effective_start.
  destruct start_date as [s|]; [|done]. simpl.
  destruct (decide (s = "")) as [->|Hs].
  - by rewrite bool_decide_eq_true_2.
  - by rewrite bool_decide_eq_false_2.
Qed.

Lemma create_rejected (x : exception) :
  date_verdict (VStr start) (VStr expiration_date) = Raise x →
  result.1 = Raise x ∧
  announcements_collection result.2 = announcements_collection w.
Proof.
  subst result. unfold create_announcement. rewrite bind_run.
  rewrite <- falsy_effective_start. subst now.
  unfold date_verdict, except_ValueError, datetime_fromisoformat,
    le_datetime, datetime_now_isoformat.
  destruct (falsy start_date);
    cbv [mbind mret Handler_bind Handler_ret raise];
    (destruct (fromisoformat _) as [ds|];
     [|intros [= <-]; done]);
    (destruct (fromisoformat expiration_date) as [de|];
     [|intros [= <-]; done]);
    destruct (datetime_le de ds) as [[]|]; intros [= <-]; done.
Qed.

Lemma create_accepted :
  date_verdict (VStr start) (VStr expiration_date) = Return () →
  (result.1 = Raise DuplicateKeyError ∧
   announcements_collection result.2 = announcements_collection w) ∨
  (∃ o created_at,
      let d := new_announcement title message start expiration_date
                                created_at in
      result.1 = Return (<["_id" := VStr (ObjectId_str o)]> d) ∧
      announcements_collection result.2
      = announcements_collection w ++ [<["_id" := VOid o]> d] ∧
      absent o (announcements_collection w)).
Proof.
  subst result. unfold create_announcement. rewrite bind_run.
  rewrite <- falsy_effective_start. subst now.
  unfold date_verdict, except_ValueError, datetime_fromisoformat,
    le_datetime, datetime_now_isoformat.
  destruct (falsy start_date);
    cbv [mbind mret Handler_bind Handler_ret raise];
    (destruct (fromisoformat _) as [ds|]; [|done]);
    (destruct (fromisoformat expiration_date) as [de|]; [|done]);
    (destruct (datetime_le de ds) as [[]|]; [done| |done]);
    intros _; rewrite insert_one_keyless by apply new_announcement_keyless;
    cbn [announcements_collection clock_reads ids_issued with_collection];
    (destruct (existsb _ _) eqn:Ex;
     [left; done
     |right; eexists _, _; repeat split; by apply existsb_absent]).
Qed.
End Create.

Lemma new_announcement_dates
    (title message start_date expiration_date created_at : string)
    (key : value) :
  let d := <["_id" := key]>
             (new_announcement title message start_date expiration_date
                               created_at) in
  d !! "start_date" = Some (VStr start_date) ∧
  d !! "expiration_date" = Some (VStr expiration_date).
Proof. unfold new_announcement. by simplify_map_eq. Qed.

Lemma date_verdict_return (sv ev : value) :
  date_verdict sv ev = Return () →
  ∃ s e ds de, sv = VStr s ∧ ev = VStr e ∧
               fromisoformat s = Some ds ∧ fromisoformat e = Some de ∧
               datetime_gt de ds = Return true.
Proof.
  intros Hv. destruct sv as [| s |]; try done.
  destruct ev as [| e |]; try (simpl in Hv; by destruct (fromisoformat s)).
  destruct (date_verdict_ordered _ _ Hv) as (ds & de & ?).
  by exists s, e, ds, de.
Qed.

Lemma create_collection
    (title message expiration_date : string) (start_date : option string)
    (w : World) :
  let w' :=
    (create_announcement title message expiration_date start_date w).2 in
  announcements_collection w' = announcements_collection w ∨
  ∃ d, announcements_collection w' = announcements_collection w ++ [d] ∧
       ((d !! "_id") ∉ keys (announcements_collection w)) ∧
       dates_ordered d.
Proof.
  simpl.
  destruct (date_verdict
              (VStr (effective_start start_date
                       (now_isoformat (clock_reads w))))
              (VStr expiration_date)) as [[]|x] eqn:Hv.
  - destruct (create_accepted title message _ _ _ Hv)
      as [[_ ?] | (o & created_at & _ & Hc & Hfresh)]; [by left|].
    right. eexists. split; [exact Hc|]. split.
    + rewrite lookup_insert_eq. by apply absent_keys.
    + destruct (date_verdict_ordered _ _ Hv) as (ds & de & ? & ? & ?).
      destruct (new_announcement_dates title message
                  (effective_start start_date (now_isoformat (clock_reads w)))
                  expiration_date created_at (VOid o)) as [? ?].
      by eexists _, _, ds, de.
  - left. by destruct (create_rejected title message _ _ _ _ Hv) as [_ ?].
Qed.

(** *** Update, case by case *)

Lemma update_malformed
    (announcement_id : string)
    (title message expiration_date start_date : option string) (w : World) :
  ObjectId_new announcement_id = None →
  update_announcement announcement_id title message expiration_date
                      start_date w
  = (Raise (HTTPException 400 "Invalid announcement ID"), w).
Proof.
  intros Hid. unfold update_announcement, parse_id. by rewrite Hid, bind_run.
Qed.

Lemma update_no_fields (announcement_id : string) (o : ObjectId) (w : World) :
  ObjectId_new announcement_id = Some o →
  update_announcement announcement_id None None None None w
  = (Raise (HTTPException 400 "No fields to update"), w).
Proof.
  intros Hid. unfold update_announcement, parse_id. by rewrite Hid, bind_run.
Qed.

Lemma merged_get_or
    (title message expiration_date start_date : option string) (d : Doc) :
  let update_data :=
    build_update_data title message expiration_date start_date in
  get_or update_data "start_date" (get d "start_date")
  = merged start_date d "start_date" ∧
  get_or update_data "expiration_date" (get d "expiration_date")
  = merged expiration_date d "expiration_date".
Proof.
  simpl. unfold get_or, merged. rewrite !update_data_lookup.
  unfold supplied. simpl. by destruct start_date, expiration_date.
Qed.

Lemma merged_stored
    (title message expiration_date start_date : option string) (d : Doc)
    (k x : string) :
  merged (supplied title message expiration_date start_date k) d k = VStr x →
  (build_update_data title message expiration_date start_date ∪ d) !! k
  = Some (VStr x).
Proof.
  unfold merged, get.
  pose proof (update_data_lookup title message expiration_date start_date k)
    as Hk.
  destruct (supplied title message expiration_date start_date k) as [v|];
    simpl in Hk.
  - intros [= ->]. by apply lookup_union_Some_l.
  - rewrite lookup_union_r by done.
    destruct (d !! k) as [v|]; simpl; intros; by simplify_eq.
Qed.

Lemma update_unsupplied
    (title message expiration_date start_date : option string) (d : Doc)
    (k : string) :
  (build_update_data title message expiration_date start_date ∪ d) !! k
  = match supplied title message expiration_date start_date k with
    | Some v => Some (VStr v)
    | None => d !! k
    end.
Proof.
  pose proof (update_data_lookup title message expiration_date start_date k)
    as Hk.
  destruct (supplied title message expiration_date start_date k) as [v|];
    simpl in Hk.
  - by apply lookup_union_Some_l.
  - by apply lookup_union_r.
Qed.

Lemma dates_ordered_ext (d d' : Doc) :
  d' !! "start_date" = d !! "start_date" →
  d' !! "expiration_date" = d !! "expiration_date" →
  dates_ordered d → dates_ordered d'.
Proof.
  intros Hs He (s & e & ds & de & ? & ? & ?).
  exists s, e, ds, de. by rewrite Hs, He.
Qed.

(** Whatever the call, update leaves the collection as it is or
    rewrites the one record it located; a rewritten record passed the
    date checks or kept its dates. *)
Lemma update_collection
    (announcement_id : string)
    (title message expiration_date start_date : option string) (w : World) :
  let w' := (update_announcement announcement_id title message
                                 expiration_date start_date w).2 in
  announcements_collection w' = announcements_collection w ∨
  ∃ o before d after d',
    located o (announcements_collection w) before d after ∧
    announcements_collection w' = before ++ d' :: after ∧
    d' !! "_id" = d !! "_id" ∧
    (dates_ordered d → dates_ordered d') ∧
    (is_Some start_date ∨ is_Some expiration_date → dates_ordered d').
Proof.
  simpl. destruct (ObjectId_new announcement_id) as [o|] eqn:Hid.
  2:{ left. by rewrite update_malformed. }
  destruct (decide (title = None ∧ message = None ∧ expiration_date = None
                    ∧ start_date = None)) as [(-> & -> & -> & ->)|Hgiven].
  { left. by rewrite (update_no_fields _ o). }
  destruct (located_or_absent o (announcements_collection w))
    as [Habs | (before & d & after & Hloc)].
  { left. by rewrite (update_absent _ o). }
  rewrite (update_located _ o _ _ _ _ _ Hid Hgiven _ _ _ Hloc).
  destruct (merged_get_or title message expiration_date start_date d)
    as [-> ->].
  case_bool_decide as Hdates.
  - destruct (date_verdict _ _) as [[]|x] eqn:Hv; [|by left].
    right. eexists o, before, d, after, _. split; [done|].
    split; [done|]. split; [apply update_data_no_id|].
    apply date_verdict_return in Hv
      as (s & e & ds & de & Hs & He & ? & ? & ?).
    assert (dates_ordered
              (build_update_data title message expiration_date start_date
                 ∪ d)) as Hord.
    { exists s, e, ds, de.
      split; [by apply merged_stored|]. split; [by apply merged_stored|].
      done. }
    by split.
  - right. eexists o, before, d, after, _. split; [done|].
    split; [done|]. split; [apply update_data_no_id|].
    split; [|done].
    apply dates_ordered_ext; rewrite update_unsupplied; unfold supplied;
      simpl.
    + destruct start_date; [|done]. destruct Hdates. eauto.
    + destruct expiration_date; [|done]. destruct Hdates. eauto.
Qed.

(** *** Delete, case by case *)

Lemma delete_malformed (announcement_id : string) (w : World) :
  ObjectId_new announcement_id = None →
  delete_announcement announcement_id w
  = (Raise (HTTPException 400 "Invalid announcement ID"), w).
Proof.
  intros Hid. unfold delete_announcement, parse_id. by rewrite Hid, bind_run.
Qed.

Lemma delete_absent (announcement_id : string) (o : ObjectId) (w : World) :
  ObjectId_new announcement_id = Some o →
  absent o (announcements_collection w) →
  delete_announcement announcement_id w
  = (Raise (HTTPException 404 "Announcement not found"), w).
Proof.
  intros Hid Habs. unfold delete_announcement, parse_id, delete_one.
  rewrite Hid. cbv [mbind mret Handler_bind Handler_ret].
  rewrite (drop_first_absent _ _ Habs). cbn.
  by rewrite with_collection_same.
Qed.

Lemma delete_located
    (announcement_id : string) (o : ObjectId) (w : World)
    (before after : list Doc) (d : Doc) :
  ObjectId_new announcement_id = Some o →
  located o (announcements_collection w) before d after →
  delete_announcement announcement_id w
  = (Return {[ "message" := "Announcement deleted successfully" ]},
     with_collection w (before ++ after)).
Proof.
  intros Hid Hloc. unfold delete_announcement, parse_id, delete_one.
  rewrite Hid. cbv [mbind mret Handler_bind Handler_ret].
  by rewrite (drop_first_located _ _ _ _ _ Hloc).
Qed.

Lemma delete_collection (announcement_id : string) (w : World) :
  let w' := (delete_announcement announcement_id w).2 in
  announcements_collection w' = announcements_collection w ∨
  ∃ o before d after,
    located o (announcements_collection w) before d after ∧
    announcements_collection w' = before ++ after.
Proof.
  simpl. destruct (ObjectId_new announcement_id) as [o|] eqn:Hid.
  2:{ left. by rewrite delete_malformed. }
  destruct (located_or_absent o (announcements_collection w))
    as [Habs | (before & d & after & Hloc)].
  - left. by rewrite (delete_absent _ o).
  - right. exists o, before, d, after. split; [done|].
    by rewrite (delete_located _ o _ _ _ _ Hid Hloc).
Qed.

(** *** Reachable worlds *)

Lemma keys_unique_after_delete (o : ObjectId) (c before after : list Doc)
    (d : Doc) :
  located o c before d after → NoDup (keys c) → absent o (before ++ after).
Proof.
  intros (-> & Hd & _). unfold keys.
  rewrite fmap_app, fmap_cons, Hd.
  intros Hnd. apply NoDup_app in Hnd as (_ & Hdisj & Hnd).
  apply NoDup_cons in Hnd as [Hafter _].
  apply absent_keys. unfold keys. rewrite fmap_app, elem_of_app.
  intros [Hin | Hin]; [|done]. by apply (Hdisj _ Hin), list_elem_of_here.
Qed.

(** Every world the router can reach from an empty collection holds
    only records with ordered dates, under pairwise different keys. *)
Lemma reachable_invariant (w : World) :
  reachable w →
  Forall dates_ordered (announcements_collection w) ∧
  NoDup (keys (announcements_collection w)).
Proof.
  induction 1 as [k i | r w Hw [IHd IHk]].
  { split; constructor. }
  destruct r as [b | | t m e s | i t m e s | i]; cbn [serve].
  - by destruct b.
  - done.
  - destruct (create_collection t m e s w)
      as [-> | (d & -> & Hfresh & Hord)]; [done|]. split.
    + apply Forall_app. split; [done|]. by constructor.
    + unfold keys. rewrite fmap_app. apply NoDup_app. split; [done|].
      split; [|apply NoDup_singleton].
      intros x Hx Hx'. apply list_elem_of_singleton in Hx' as ->. done.
  - destruct (update_collection i t m e s w)
      as [-> | (o & before & d & after & d' & (Hc & _ & _) & -> & Hk & Hkeep
                & _)]; [done|].
    rewrite Hc in IHd, IHk. split.
    + apply Forall_app in IHd as [? IHd].
      apply Forall_cons in IHd as [? ?].
      apply Forall_app. split; [done|]. constructor; [by apply Hkeep|done].
    + unfold keys in *. rewrite fmap_app, fmap_cons in *. by rewrite Hk.
  - destruct (delete_collection i w)
      as [-> | (o & before & d & after & (Hc & _ & _) & ->)]; [done|].
    rewrite Hc in IHd, IHk. split.
    + apply Forall_app in IHd as [? IHd].
      apply Forall_cons in IHd as [? ?]. by apply Forall_app.
    + unfold keys in *. rewrite fmap_app, fmap_cons in IHk.
      rewrite fmap_app.
      apply NoDup_app in IHk as (? & Hdisj & IHk).
      apply NoDup_cons in IHk as [? ?].
      apply NoDup_app. split; [done|]. split; [|done].
      intros x Hx Hx'. apply (Hdisj x Hx). by apply list_elem_of_further.
Qed.

(** A successful update located a record and replaced it by the
    supplied fields laid over it. *)
Lemma update_success
    (announcement_id : string)
    (title message expiration_date start_date : option string)
    (w w' : World) (r : Doc) :
  update_announcement announcement_id title message expiration_date
                      start_date w = (Return r, w') →
  ∃ o before d after,
    let d' := build_update_data title message expiration_date start_date
                ∪ d in
    ObjectId_new announcement_id = Some o ∧
    located o (announcements_collection w) before d after ∧
    w' = with_collection w (before ++ d' :: after) ∧
    r = <["_id" := VStr (ObjectId_str o)]> d' ∧
    (is_Some start_date ∨ is_Some expiration_date →
     date_verdict (merged start_date d "start_date")
                  (merged expiration_date d "expiration_date") = Return ()).
Proof.
  destruct (ObjectId_new announcement_id) as [o|] eqn:Hid.
  2:{ by rewrite update_malformed. }
  destruct (decide (title = None ∧ message = None ∧ expiration_date = None
                    ∧ start_date = None)) as [(-> & -> & -> & ->)|Hgiven].
  { by rewrite (update_no_fields _ o). }
  destruct (located_or_absent o (announcements_collection w))
    as [Habs | (before & d & after & Hloc)].
  { by rewrite (update_absent _ o). }
  rewrite (update_located _ o _ _ _ _ _ Hid Hgiven _ _ _ Hloc).
  destruct (merged_get_or title message expiration_date start_date d)
    as [-> ->].
  case_bool_decide as Hdates.
  - destruct (date_verdict _ _) as [[]|x] eqn:Hv; [|done].
    intros [= <- <-]. by exists o, before, d, after.
  - intros [= <- <-]. by exists o, before, d, after.
Qed.

(** *** The date invariant *)

(** C1. After every successful create the record it stored, and after
    every successful update that supplies [start_date] or
    [expiration_date] the record it rewrote, holds two dates that
    parse and whose parsed expiration is after the parsed start; and
    so does every record of every world the router reaches from an
    empty collection. *)
Theorem stored_dates_ordered :
  (∀ title message expiration_date start_date w w' r,
      create_announcement title message expiration_date start_date w
      = (Return r, w') →
      ∃ d, announcements_collection w' = announcements_collection w ++ [d] ∧
           dates_ordered d) ∧
  (∀ announcement_id title message expiration_date start_date w w' r,
      is_Some start_date ∨ is_Some expiration_date →
      update_announcement announcement_id title message expiration_date
                          start_date w = (Return r, w') →
      ∃ o before d after d',
        ObjectId_new announcement_id = Some o ∧
        located o (announcements_collection w) before d after ∧
        located o (announcements_collection w') before d' after ∧
        dates_ordered d') ∧
  (∀ w, reachable w → Forall dates_ordered (announcements_collection w)).
Proof.
  split; [|split].
  - intros title message expiration_date start_date w w' r Hrun.
    destruct (date_verdict
                (VStr (effective_start start_date
                         (now_isoformat (clock_reads w))))
                (VStr expiration_date)) as [[]|x] eqn:Hv.
    + destruct (create_accepted title message _ _ _ Hv)
        as [[Hr _] | (o & created_at & _ & Hc & _)];
        rewrite Hrun in *; [done|].
      eexists. split; [exact Hc|].
      destruct (date_verdict_ordered _ _ Hv) as (ds & de & ? & ? & ?).
      destruct (new_announcement_dates title message
                  (effective_start start_date (now_isoformat (clock_reads w)))
                  expiration_date created_at (VOid o)) as [? ?].
      by eexists _, _, ds, de.
    + destruct (create_rejected title message _ _ _ _ Hv) as [Hr _].
      by rewrite Hrun in Hr.
  - intros announcement_id title message expiration_date start_date w w' r
           Hdates Hrun.
    apply update_success
      in Hrun as (o & before & d & after & Hid & Hloc & -> & _ & Hv).
    exists o, before, d, after. eexists. split; [done|]. split; [done|].
    split.
    + destruct Hloc as (_ & Hd & Hb). repeat split; [|done].
      by rewrite update_data_no_id.
    + apply date_verdict_return in Hv
        as (s & e & ds & de & Hs & He & ? & ? & ?); [|done].
      exists s, e, ds, de.
      split; [by apply merged_stored|]. split; [by apply merged_stored|].
      done.
  - intros w Hw. by apply reachable_invariant.
Qed.

(** *** Create *)

(** C2, as the code has it.  When the start date create works with
    (the supplied one, or the current instant when none or an empty
    one is supplied) or the expiration date does not parse, or the
    parsed expiration is not after that parsed start, create fails
    with status 400 and the collection is unchanged. *)
Theorem create_rejects_bad_dates
    (title message expiration_date : string) (start_date : option string)
    (w : World) :
  let start :=
    effective_start start_date (now_isoformat (clock_reads w)) in
  let result :=
    create_announcement title message expiration_date start_date w in
  fromisoformat start = None ∨
  fromisoformat expiration_date = None ∨
  (∃ ds de, fromisoformat start = Some ds ∧
            fromisoformat expiration_date = Some de ∧
            datetime_le de ds = Return true) →
  ∃ detail,
    result.1 = Raise (HTTPException 400 detail) ∧
    announcements_collection result.2 = announcements_collection w.
Proof.
  intros start result Hbad.
  assert (∃ detail,
             date_verdict (VStr start) (VStr expiration_date)
             = Raise (HTTPException 400 detail)) as [detail Hv].
  { unfold date_verdict.
    destruct Hbad as [-> | [He | (ds & de & -> & -> & ->)]]; eauto.
    destruct (fromisoformat start); [rewrite He|]; eauto. }
  exists detail. by apply create_rejected.
Qed.

(** C10. An empty [start_date] is handled exactly as an omitted one:
    the two calls agree in outcome and world, and a record stored for
    either holds the clock's reading at the call as its start date,
    which is the value that was parsed. *)
Theorem empty_start_is_omitted
    (title message expiration_date : string) (w : World) :
  let now := now_isoformat (clock_reads w) in
  create_announcement title message expiration_date (Some "") w
  = create_announcement title message expiration_date None w ∧
  (∀ r w',
      create_announcement title message expiration_date (Some "") w
      = (Return r, w') →
      r !! "start_date" = Some (VStr now) ∧
      is_Some (fromisoformat now) ∧
      ∃ d, announcements_collection w' = announcements_collection w ++ [d] ∧
           d !! "start_date" = Some (VStr now)).
Proof.
  intros now. split; [done|]. intros r w' Hrun.
  destruct (date_verdict (VStr (effective_start (Some "") now))
                         (VStr expiration_date)) as [[]|x] eqn:Hv.
  - destruct (create_accepted title message _ _ _ Hv)
      as [[Hr _] | (o & created_at & Hr & Hc & _)];
      rewrite Hrun in *; [done|].
    simpl in Hr. injection Hr as ->.
    destruct (date_verdict_ordered _ _ Hv) as (ds & de & Hs & _).
    change (effective_start (Some "") now) with now in *.
    split; [|split; [by rewrite Hs|]].
    + rewrite lookup_insert_ne by done.
      by destruct (new_announcement_dates title message now expiration_date
                     created_at VNull) as [Hd _];
        rewrite lookup_insert_ne in Hd.
    + eexists. split; [exact Hc|].
      by destruct (new_announcement_dates title message now expiration_date
                     created_at (VOid o)).
  - destruct (create_rejected title message _ _ _ _ Hv) as [Hr _].
    by rewrite Hrun in Hr.
Qed.

(** *** Update *)

(** C5. A successful update rewrites one record, the one located by
    the identifier, and nothing else in the world: every field the
    call supplies holds the supplied value, every other field, among
    them [_id] and [created_at], holds what it held before; the value
    returned is the rewritten record, its identifier rendered as a
    string. *)
Theorem update_changes_supplied_fields_only
    (announcement_id : string)
    (title message expiration_date start_date : option string)
    (w w' : World) (r : Doc) :
  update_announcement announcement_id title message expiration_date
                      start_date w = (Return r, w') →
  ∃ o before d after d',
    ObjectId_new announcement_id = Some o ∧
    located o (announcements_collection w) before d after ∧
    w' = with_collection w (before ++ d' :: after) ∧
    (∀ k, d' !! k
          = match supplied title message expiration_date start_date k with
            | Some v => Some (VStr v)
            | None => d !! k
            end) ∧
    d' !! "_id" = d !! "_id" ∧
    d' !! "created_at" = d !! "created_at" ∧
    r = stringify_id d'.
Proof.
  intros Hrun.
  apply update_success
    in Hrun as (o & before & d & after & Hid & Hloc & -> & -> & _).
  exists o, before, d, after. eexists.
  split; [done|]. split; [done|]. split; [done|].
  split; [apply update_unsupplied|].
  split; [apply update_data_no_id|].
  split; [by rewrite update_unsupplied|].
  unfold stringify_id. rewrite update_data_no_id.
  destruct Hloc as (_ & -> & _). done.
Qed.

(** C6, as the code has it.  A malformed identifier fails with status
    400; a call that supplies no field fails with status 400; a
    well-formed identifier that matches no record fails with status
    404 when the call supplies at least one field; in each case the
    world is unchanged, and no outcome is both a 400 and a 404. *)
Theorem update_error_outcomes
    (announcement_id : string)
    (title message expiration_date start_date : option string) (w : World) :
  let result :=
    update_announcement announcement_id title message expiration_date
                        start_date w in
  (ObjectId_new announcement_id = None →
   result = (Raise (HTTPException 400 "Invalid announcement ID"), w)) ∧
  (title = None → message = None → expiration_date = None →
   start_date = None →
   ∃ detail, result = (Raise (HTTPException 400 detail), w)) ∧
  (∀ o, ObjectId_new announcement_id = Some o →
        ¬ (title = None ∧ message = None ∧ expiration_date = None
           ∧ start_date = None) →
        absent o (announcements_collection w) →
        result = (Raise (HTTPException 404 "Announcement not found"), w)) ∧
  (∀ detail detail',
      ¬ (result.1 = Raise (HTTPException 400 detail) ∧
         result.1 = Raise (HTTPException 404 detail'))).
Proof.
  intros result. subst result. split; [|split; [|split]].
  - apply update_malformed.
  - intros -> -> -> ->.
    destruct (ObjectId_new announcement_id) as [o|] eqn:Hid.
    + rewrite (update_no_fields _ o) by done. eauto.
    + rewrite update_malformed by done. eauto.
  - intros o Hid Hgiven Habs. by apply (update_absent _ o).
  - intros detail detail' [E E']. rewrite E in E'. discriminate.
Qed.

(** C7. On a located record, update checks the order of the dates
    exactly when the call supplies [start_date] or [expiration_date].
    A call that supplies neither succeeds whatever dates the record
    holds.  A call that supplies one or both is judged on the supplied
    values laid over the record's own: when both merged values parse,
    it fails with status 400 if the expiration is not after the start
    and succeeds if it is. *)
Theorem update_validates_merged_dates
    (announcement_id : string) (o : ObjectId)
    (title message expiration_date start_date : option string)
    (w : World) (before after : list Doc) (d : Doc) :
  let result :=
    update_announcement announcement_id title message expiration_date
                        start_date w in
  let d' :=
    build_update_data title message expiration_date start_date ∪ d in
  let success :=
    (Return (stringify_id d'),
     with_collection w (before ++ d' :: after)) in
  ObjectId_new announcement_id = Some o →
  located o (announcements_collection w) before d after →
  (start_date = None → expiration_date = None →
   is_Some title ∨ is_Some message →
   result = success) ∧
  (is_Some start_date ∨ is_Some expiration_date →
   ∀ s e ds de,
     merged start_date d "start_date" = VStr s →
     merged expiration_date d "expiration_date" = VStr e →
     fromisoformat s = Some ds →
     fromisoformat e = Some de →
     (datetime_le de ds = Return true →
      result = (Raise (HTTPException 400
                         "Expiration date must be after start date"), w)) ∧
     (datetime_le de ds = Return false → result = success)).
Proof.
  intros result d' success Hid Hloc.
  assert (Hr : stringify_id d' = <["_id" := VStr (ObjectId_str o)]> d').
  { unfold stringify_id. subst d'. rewrite update_data_no_id.
    destruct Hloc as (_ & -> & _). done. }
  subst result success. rewrite Hr. split.
  - intros -> -> Hgiven.
    assert (Hg : ¬ (title = None ∧ message = None
                    ∧ @None string = None ∧ @None string = None)).
    { intros (-> & -> & _). destruct Hgiven as [[? ?]|[? ?]]; done. }
    rewrite (update_located _ o _ _ _ _ _ Hid Hg _ _ _ Hloc).
    rewrite bool_decide_eq_false_2; [done|].
    intros [[? ?]|[? ?]]; done.
  - intros Hdates s e ds de Hs He Hds Hde.
    assert (Hg : ¬ (title = None ∧ message = None
                    ∧ expiration_date = None ∧ start_date = None)).
    { intros (_ & _ & -> & ->). destruct Hdates as [[? ?]|[? ?]]; done. }
    rewrite (update_located _ o _ _ _ _ _ Hid Hg _ _ _ Hloc).
    rewrite bool_decide_eq_true_2 by done.
    destruct (merged_get_or title message expiration_date start_date d)
      as [-> ->].
    rewrite Hs, He. unfold date_verdict. rewrite Hds, Hde.
    split; intros ->; done.
Qed.

(** C9. When the located record has no [start_date], or a null one,
    and the call supplies [expiration_date] but not [start_date],
    parsing the merged start date raises [TypeError], which the
    [except ValueError] clause does not handle: the call ends in that
    exception, with no status 400, no status 404 and no result, and
    the world is unchanged. *)
Theorem update_without_stored_start_raises
    (announcement_id : string) (o : ObjectId)
    (title message : option string) (expiration_date : string)
    (w : World) (before after : list Doc) (d : Doc) :
  let result :=
    update_announcement announcement_id title message (Some expiration_date)
                        None w in
  ObjectId_new announcement_id = Some o →
  located o (announcements_collection w) before d after →
  d !! "start_date" = None ∨ d !! "start_date" = Some VNull →
  result = (Raise TypeError, w) ∧
  (∀ status detail, result.1 ≠ Raise (HTTPException status detail)) ∧
  (∀ r, result.1 ≠ Return r).
Proof.
  intros result Hid Hloc Hstart.
  assert (Hrun : result = (Raise TypeError, w)).
  { subst result.
    assert (Hg : ¬ (title = None ∧ message = None
                    ∧ Some expiration_date = None ∧ @None string = None)).
    { intros (_ & _ & ? & _). done. }
    rewrite (update_located _ o _ _ _ _ _ Hid Hg _ _ _ Hloc).
    rewrite bool_decide_eq_true_2 by eauto.
    destruct (merged_get_or title message (Some expiration_date) None d)
      as [-> _].
    unfold merged, get. by destruct Hstart as [-> | ->]. }
  rewrite Hrun. by repeat split.
Qed.

(** *** Delete *)

(** C8. Delete fails with status 400 on a malformed identifier and
    with status 404 on a well-formed one that matches no record, the
    world unchanged in both cases.  On a well-formed identifier that
    matches a record it removes that record, leaves the others in
    place and returns [{"message": "Announcement deleted
    successfully"}]; keys being unique, no record with that key is
    left, and deleting it again fails with status 404. *)
Theorem delete_outcomes (announcement_id : string) (w : World) :
  let result := delete_announcement announcement_id w in
  (ObjectId_new announcement_id = None →
   result = (Raise (HTTPException 400 "Invalid announcement ID"), w)) ∧
  (∀ o, ObjectId_new announcement_id = Some o →
        absent o (announcements_collection w) →
        result = (Raise (HTTPException 404 "Announcement not found"), w)) ∧
  (∀ o before d after,
      ObjectId_new announcement_id = Some o →
      located o (announcements_collection w) before d after →
      result = (Return {[ "message" := "Announcement deleted successfully" ]},
                with_collection w (before ++ after)) ∧
      (NoDup (keys (announcements_collection w)) →
       absent o (announcements_collection result.2) ∧
       (delete_announcement announcement_id result.2).1
       = Raise (HTTPException 404 "Announcement not found"))).
Proof.
  intros result. subst result. split; [|split].
  - apply delete_malformed.
  - intros o. apply delete_absent.
  - intros o before d after Hid Hloc.
    rewrite (delete_located _ o _ _ _ _ Hid Hloc). split; [done|].
    intros Hnd. cbn [snd with_collection announcements_collection].
    pose proof (keys_unique_after_delete _ _ _ _ _ Hloc Hnd) as Habs.
    split; [done|]. by rewrite (delete_absent _ o).
Qed.

End Properties.

(** ** Further properties of the handlers *)

Section Further.
Context `{Platform}.

(** *** Listing *)

Lemma compare_le_lt (a b c : string) :
  String.compare a b ≠ Gt → String.compare b c = Lt →
  String.compare a c = Lt.
Proof.
  revert b c. induction a as [|x a IH]; intros [|y b] [|z c]; simpl;
    try done.
  unfold Ascii.compare.
  destruct (N.compare_spec (N_of_ascii x) (N_of_ascii y)),
           (N.compare_spec (N_of_ascii y) (N_of_ascii z)),
           (N.compare_spec (N_of_ascii x) (N_of_ascii z));
    try done; try lia.
  apply IH.
Qed.

Lemma filter_fmap_invariant (f : Doc → Doc) (P : Doc → Prop)
    `{∀ d, Decision (P d)} (l : list Doc) :
  (∀ d, P (f d) ↔ P d) → filter P (f <$> l) = f <$> filter P l.
Proof.
  intros Hf. induction l as [|d l IH]; [done|].
  rewrite fmap_cons, !filter_cons, IH.
  destruct (decide (P (f d))) as [Hp|Hp], (decide (P d)) as [Hq|Hq];
    try done.
  - apply (proj1 (Hf d)) in Hp. contradiction.
  - apply (proj2 (Hf d)) in Hq. contradiction.
Qed.

Lemma filter_weaken (P Q : Doc → Prop)
    `{∀ d, Decision (P d)} `{∀ d, Decision (Q d)} (l : list Doc) :
  (∀ d, P d → Q d) → filter P l `sublist_of` filter Q l.
Proof.
  intros Hpq. rewrite <- (list_filter_filter_l P Q) by done.
  apply sublist_filter.
Qed.

Lemma started_by_stringify (now : string) (d : Doc) :
  started_by now (stringify_id d) ↔ started_by now d.
Proof. unfold started_by. by rewrite stringify_id_other. Qed.

Lemma list_unexpired_run (w : World) :
  (get_announcements false w).1
  = Return (stringify_id
              <$> filter (expires_after (now_isoformat (clock_reads w)))
                         (announcements_collection w)).
Proof.
  unfold get_announcements, find. rewrite !bind_run. simpl.
  do 2 f_equal. apply filter_reflect, matches_expiring.
Qed.

Lemma list_active_run (w : World) :
  (get_active_announcements w).1
  = Return (stringify_id
              <$> filter (active (now_isoformat (clock_reads w)))
                         (announcements_collection w)).
Proof.
  unfold get_active_announcements, find. rewrite !bind_run. simpl.
  do 2 f_equal. apply filter_reflect, matches_active.
Qed.

(** At one reading of the clock, the active listing is the unexpired
    listing with the records removed whose start lies after [now]: it
    is obtained from that listing by the start test alone, and keeps
    its order. *)
Theorem active_refines_unexpired (w : World) :
  let now := now_isoformat (clock_reads w) in
  ∃ act live,
    (get_active_announcements w).1 = Return act ∧
    (get_announcements false w).1 = Return live ∧
    act = filter (started_by now) live ∧
    act `sublist_of` live.
Proof.
  intros now. eexists _, _.
  split; [apply list_active_run|]. split; [apply list_unexpired_run|].
  fold now.
  assert (Hact : stringify_id
                   <$> filter (active now) (announcements_collection w)
                 = filter (started_by now)
                     (stringify_id
                        <$> filter (expires_after now)
                              (announcements_collection w))).
  { rewrite filter_fmap_invariant by apply started_by_stringify.
    by rewrite list_filter_filter. }
  split; [exact Hact|]. rewrite Hact. apply sublist_filter.
Qed.

(** A record that the unexpired listing leaves out at one reading of
    the clock is left out at every later reading: with the same
    collection, the listing at a later [now] is a sublist of the
    listing at an earlier one. *)
Theorem expired_stays_expired (w1 w2 : World) :
  announcements_collection w1 = announcements_collection w2 →
  String.compare (now_isoformat (clock_reads w1))
                 (now_isoformat (clock_reads w2)) ≠ Gt →
  ∃ earlier later,
    (get_announcements false w1).1 = Return earlier ∧
    (get_announcements false w2).1 = Return later ∧
    later `sublist_of` earlier.
Proof.
  intros Hc Hclock. eexists _, _.
  split; [apply list_unexpired_run|]. split; [apply list_unexpired_run|].
  rewrite Hc. apply fmap_sublist, filter_weaken.
  intros d. unfold expires_after.
  destruct (d !! "expiration_date") as [[| e |]|]; try done.
  by apply compare_le_lt.
Qed.

(** Every record a handler returns carries its identifier as a string,
    if it carries one: the records of both listings, and the results of
    create and update, which always carry one. *)
Theorem results_carry_string_ids :
  (∀ w b l r,
      (get_announcements b w).1 = Return l → r ∈ l →
      r !! "_id" = None ∨ ∃ i, r !! "_id" = Some (VStr i)) ∧
  (∀ w l r,
      (get_active_announcements w).1 = Return l → r ∈ l →
      r !! "_id" = None ∨ ∃ i, r !! "_id" = Some (VStr i)) ∧
  (∀ title message expiration_date start_date w r,
      (create_announcement title message expiration_date start_date w).1
      = Return r →
      ∃ i, r !! "_id" = Some (VStr i)) ∧
  (∀ announcement_id title message expiration_date start_date w r,
      (update_announcement announcement_id title message expiration_date
                           start_date w).1 = Return r →
      ∃ i, r !! "_id" = Some (VStr i)).
Proof.
  assert (Hs : ∀ d : Doc,
             stringify_id d !! "_id" = None
             ∨ ∃ i, stringify_id d !! "_id" = Some (VStr i)).
  { intros d. unfold stringify_id.
    destruct (d !! "_id") eqn:E; [right|by left].
    rewrite lookup_insert_eq. eauto. }
  split; [|split; [|split]].
  - intros w b l r Hrun Hr.
    assert (∃ c, l = stringify_id <$> c) as [c ->].
    { destruct b.
      - unfold get_announcements, find in Hrun. rewrite !bind_run in Hrun.
        simpl in Hrun. injection Hrun as <-. eauto.
      - rewrite list_unexpired_run in Hrun. injection Hrun as <-. eauto. }
    apply list_elem_of_fmap in Hr as (d & -> & _). apply Hs.
  - intros w l r Hrun Hr. rewrite list_active_run in Hrun.
    injection Hrun as <-.
    apply list_elem_of_fmap in Hr as (d & -> & _). apply Hs.
  - intros title message expiration_date start_date w r Hrun.
    destruct (date_verdict
                (VStr (effective_start start_date
                         (now_isoformat (clock_reads w))))
                (VStr expiration_date)) as [[]|x] eqn:Hv.
    + destruct (create_accepted title message _ _ _ Hv)
        as [[Hr _] | (o & created_at & Hr & _)];
        rewrite Hrun in Hr; [done|].
      injection Hr as ->. rewrite lookup_insert_eq. eauto.
    + destruct (create_rejected title message _ _ _ _ Hv) as [Hr _].
      by rewrite Hrun in Hr.
  - intros announcement_id title message expiration_date start_date w r Hrun.
    destruct (update_announcement announcement_id title message
                                  expiration_date start_date w)
      as [r' w'] eqn:Hu.
    simpl in Hrun. subst r'.
    apply update_success in Hu as (o & _ & d & _ & _ & _ & _ & -> & _).
    rewrite lookup_insert_eq. eauto.
Qed.

(** *** Create *)

Lemma absent_existsb (o : ObjectId) (c : list Doc) :
  absent o c → existsb (matches (by_id o)) c = false.
Proof.
  induction 1 as [|x l Hx _ IH]; [done|]. cbn [existsb].
  apply mismatches_by_id in Hx. by rewrite Hx, IH.
Qed.

Lemma datetime_gt_not_le (a b : datetime) :
  datetime_gt a b = Return true → datetime_le a b = Return false.
Proof.
  unfold datetime_gt, datetime_le.
  destruct (datetime_cmp a b) as [[]|]; done.
Qed.

Lemma mixed_awareness_le (a b : datetime) :
  mixed_awareness a b → datetime_le b a = Raise TypeError.
Proof.
  unfold mixed_awareness, datetime_le, datetime_cmp.
  intros [[-> [ob ->]] | [[oa ->] ->]]; done.
Qed.

Lemma create_valid_run
    (title message expiration_date : string) (start_date : option string)
    (w : World) (ds de : datetime) :
  let start :=
    effective_start start_date (now_isoformat (clock_reads w)) in
  let reads :=
    if falsy start_date then S (clock_reads w) else clock_reads w in
  let o := ObjectId_generate (ids_issued w) in
  let d := new_announcement title message start expiration_date
                            (now_isoformat reads) in
  fromisoformat start = Some ds →
  fromisoformat expiration_date = Some de →
  datetime_le de ds = Return false →
  create_announcement title message expiration_date start_date w
  = if existsb (matches (by_id o)) (announcements_collection w)
    then (Raise DuplicateKeyError,
          mkWorld (announcements_collection w) (S reads) (S (ids_issued w)))
    else (Return (<["_id" := VStr (ObjectId_str o)]> d),
          mkWorld (announcements_collection w ++ [<["_id" := VOid o]> d])
                  (S reads) (S (ids_issued w))).
Proof.
  intros start reads o d Hs He Hle.
  subst d reads start o. revert Hs.
  rewrite <- (falsy_effective_start title message expiration_date
                                    start_date w).
  unfold create_announcement, except_ValueError, datetime_fromisoformat,
    le_datetime, datetime_now_isoformat.
  rewrite bind_run.
  destruct (falsy start_date); intros Hs;
    cbv [mbind mret Handler_bind Handler_ret raise];
    rewrite Hs, He, Hle;
    rewrite insert_one_keyless by apply new_announcement_keyless;
    cbn [announcements_collection clock_reads ids_issued with_collection];
    unfold by_id; by destruct (existsb _ _).
Qed.

(** With dates that parse, an expiration after the start and a
    generated key not yet in use, create succeeds: it appends one
    record made of the title, the message, the start date as supplied
    (or the clock reading, when none or an empty one is supplied), the
    expiration date as supplied, and [created_at] taken from the next
    clock reading; it returns that record with the key as a string, and
    leaves the rest of the collection as it was. *)
Theorem create_stores_and_returns
    (title message expiration_date : string) (start_date : option string)
    (w : World) (ds de : datetime) :
  let start :=
    effective_start start_date (now_isoformat (clock_reads w)) in
  let reads :=
    if falsy start_date then S (clock_reads w) else clock_reads w in
  let o := ObjectId_generate (ids_issued w) in
  let d := new_announcement title message start expiration_date
                            (now_isoformat reads) in
  fromisoformat start = Some ds →
  fromisoformat expiration_date = Some de →
  datetime_gt de ds = Return true →
  absent o (announcements_collection w) →
  create_announcement title message expiration_date start_date w
  = (Return (<["_id" := VStr (ObjectId_str o)]> d),
     mkWorld (announcements_collection w ++ [<["_id" := VOid o]> d])
             (S reads) (S (ids_issued w))).
Proof.
  intros start reads o d Hs He Hgt Hfresh.
  apply datetime_gt_not_le in Hgt. apply absent_existsb in Hfresh.
  rewrite (create_valid_run _ _ _ _ _ _ _ Hs He Hgt).
  fold o. by rewrite Hfresh.
Qed.

(** When one of the two dates create parses is naive and the other is
    aware, ordering them raises [TypeError]; no handler catches it, so
    the call ends in that exception instead of a status 400, and no
    record is stored. *)
Theorem create_mixed_awareness_raises
    (title message expiration_date : string) (start_date : option string)
    (w : World) (ds de : datetime) :
  let start :=
    effective_start start_date (now_isoformat (clock_reads w)) in
  let result :=
    create_announcement title message expiration_date start_date w in
  fromisoformat start = Some ds →
  fromisoformat expiration_date = Some de →
  mixed_awareness ds de →
  result.1 = Raise TypeError ∧
  announcements_collection result.2 = announcements_collection w.
Proof.
  intros start result Hs He Hmixed. apply create_rejected.
  fold start. unfold date_verdict.
  by rewrite Hs, He, (mixed_awareness_le _ _ Hmixed).
Qed.

(** *** Update *)

Section UpdateDates.
Variables (announcement_id : string) (o : ObjectId).
Variables (title message expiration_date start_date : option string).
Variables (w : World) (before after : list Doc) (d : Doc).
Hypothesis Hid : ObjectId_new announcement_id = Some o.
Hypothesis Hloc : located o (announcements_collection w) before d after.
Hypothesis Hdates : is_Some start_date ∨ is_Some expiration_date.

Lemma update_dated :
  update_announcement announcement_id title message expiration_date
                      start_date w
  = match date_verdict (merged start_date d "start_date")
                       (merged expiration_date d "expiration_date") with
    | Return _ =>
        let d' := build_update_data title message expiration_date start_date
                    ∪ d in
        (Return (<["_id" := VStr (ObjectId_str o)]> d'),
         with_collection w (before ++ d' :: after))
    | Raise e => (Raise e, w)
    end.
Proof using Hid Hloc Hdates.
  assert (Hg : ¬ (title = None ∧ message = None
                  ∧ expiration_date = None ∧ start_date = None)).
  { intros (_ & _ & -> & ->). destruct Hdates as [[? ?]|[? ?]]; done. }
  rewrite (update_located _ o _ _ _ _ _ Hid Hg _ _ _ Hloc).
  rewrite bool_decide_eq_true_2 by done.
  by destruct (merged_get_or title message expiration_date start_date d)
    as [-> ->].
Qed.

(** On a located record, when the call supplies a date and the two
    merged dates parse to one naive and one aware value, update ends in
    [TypeError], not in a status 400, and writes nothing. *)
Theorem update_mixed_awareness_raises (s e : string) (ds de : datetime) :
  merged start_date d "start_date" = VStr s →
  merged expiration_date d "expiration_date" = VStr e →
  fromisoformat s = Some ds →
  fromisoformat e = Some de →
  mixed_awareness ds de →
  update_announcement announcement_id title message expiration_date
                      start_date w
  = (Raise TypeError, w).
Proof using Hid Hloc Hdates.
  intros Hs He Hds Hde Hmixed. rewrite update_dated, Hs, He.
  unfold date_verdict. by rewrite Hds, Hde, (mixed_awareness_le _ _ Hmixed).
Qed.

(** On a located record, when the call supplies a date, update parses
    the merged start first and the merged expiration second: a merged
    start that does not parse, or a merged expiration that does not
    parse after a start that does, fails with status 400
    ["Invalid date format"]; a merged expiration that is no string,
    after a start that parses, ends in [TypeError].  Nothing is written
    in any of these cases. *)
Theorem update_rejects_unparsable_dates :
  let result :=
    update_announcement announcement_id title message expiration_date
                        start_date w in
  (∀ s, merged start_date d "start_date" = VStr s →
        fromisoformat s = None →
        result = (Raise (HTTPException 400 "Invalid date format"), w)) ∧
  (∀ s e, merged start_date d "start_date" = VStr s →
          is_Some (fromisoformat s) →
          merged expiration_date d "expiration_date" = VStr e →
          fromisoformat e = None →
          result = (Raise (HTTPException 400 "Invalid date format"), w)) ∧
  (∀ s, merged start_date d "start_date" = VStr s →
        is_Some (fromisoformat s) →
        (∀ e, merged expiration_date d "expiration_date" ≠ VStr e) →
        result = (Raise TypeError, w)).
Proof using Hid Hloc Hdates.
  intros result. subst result. rewrite update_dated. unfold date_verdict.
  split; [|split].
  - intros s -> Hs. by rewrite Hs.
  - intros s e -> [ds ->] -> He. by rewrite He.
  - intros s -> [ds ->] He.
    destruct (merged expiration_date d "expiration_date") as [| e |];
      try done.
    by destruct (He e).
Qed.

End UpdateDates.

(** *** Every call, case by case *)

Lemma create_cases
    (title message expiration_date : string) (start_date : option string)
    (w : World) :
  let start :=
    effective_start start_date (now_isoformat (clock_reads w)) in
  let result :=
    create_announcement title message expiration_date start_date w in
  (∃ x, result.1 = Raise x ∧
        announcements_collection result.2 = announcements_collection w) ∨
  (∃ o created_at,
      let d := new_announcement title message start expiration_date
                                created_at in
      result.1 = Return (<["_id" := VStr (ObjectId_str o)]> d) ∧
      announcements_collection result.2
      = announcements_collection w ++ [<["_id" := VOid o]> d] ∧
      absent o (announcements_collection w)).
Proof.
  intros start result.
  destruct (date_verdict (VStr start) (VStr expiration_date))
    as [[]|x] eqn:Hv.
  - destruct (create_accepted title message _ _ _ Hv)
      as [[? ?] | (o & created_at & ?)]; [left; eauto|right; eauto].
  - left. exists x. by apply create_rejected.
Qed.

Lemma update_cases
    (announcement_id : string)
    (title message expiration_date start_date : option string) (w : World) :
  let result :=
    update_announcement announcement_id title message expiration_date
                        start_date w in
  (∃ x, result = (Raise x, w)) ∨
  (∃ o before d after,
      let d' := build_update_data title message expiration_date start_date
                  ∪ d in
      ObjectId_new announcement_id = Some o ∧
      located o (announcements_collection w) before d after ∧
      ¬ (title = None ∧ message = None ∧ expiration_date = None
         ∧ start_date = None) ∧
      result = (Return (<["_id" := VStr (ObjectId_str o)]> d'),
                with_collection w (before ++ d' :: after))).
Proof.
  simpl. destruct (ObjectId_new announcement_id) as [o|] eqn:Hid.
  2:{ left. rewrite update_malformed by done. eauto. }
  destruct (decide (title = None ∧ message = None ∧ expiration_date = None
                    ∧ start_date = None)) as [(-> & -> & -> & ->)|Hgiven].
  { left. rewrite (update_no_fields _ o) by done. eauto. }
  destruct (located_or_absent o (announcements_collection w))
    as [Habs | (before & d & after & Hloc)].
  { left. rewrite (update_absent _ o) by done. eauto. }
  rewrite (update_located _ o _ _ _ _ _ Hid Hgiven _ _ _ Hloc).
  destruct (if bool_decide _ then _ else _) as [[]|x].
  - right. by exists o, before, d, after.
  - left. eauto.
Qed.

Lemma delete_cases (announcement_id : string) (w : World) :
  let result := delete_announcement announcement_id w in
  (∃ x, result = (Raise x, w)) ∨
  (∃ o before d after,
      ObjectId_new announcement_id = Some o ∧
      located o (announcements_collection w) before d after ∧
      result = (Return {[ "message" := "Announcement deleted successfully" ]},
                with_collection w (before ++ after))).
Proof.
  simpl. destruct (ObjectId_new announcement_id) as [o|] eqn:Hid.
  2:{ left. rewrite delete_malformed by done. eauto. }
  destruct (located_or_absent o (announcements_collection w))
    as [Habs | (before & d & after & Hloc)].
  - left. rewrite (delete_absent _ o) by done. eauto.
  - right. exists o, before, d, after.
    by rewrite (delete_located _ o _ _ _ _ Hid Hloc).
Qed.

(** A call that ends in an exception, whichever it is, has written
    nothing: a failed create leaves the collection as it was, a failed
    update or delete leaves the whole world as it was. *)
Theorem failed_calls_write_nothing :
  (∀ title message expiration_date start_date w x,
      (create_announcement title message expiration_date start_date w).1
      = Raise x →
      announcements_collection
        (create_announcement title message expiration_date start_date w).2
      = announcements_collection w) ∧
  (∀ announcement_id title message expiration_date start_date w x,
      (update_announcement announcement_id title message expiration_date
                           start_date w).1 = Raise x →
      (update_announcement announcement_id title message expiration_date
                           start_date w).2 = w) ∧
  (∀ announcement_id w x,
      (delete_announcement announcement_id w).1 = Raise x →
      (delete_announcement announcement_id w).2 = w).
Proof.
  split; [|split].
  - intros title message expiration_date start_date w x Hrun.
    destruct (create_cases title message expiration_date start_date w)
      as [(? & _ & ?) | (o & created_at & Hr & _)]; [done|].
    simpl in Hr. by rewrite Hrun in Hr.
  - intros announcement_id title message expiration_date start_date w x Hrun.
    destruct (update_cases announcement_id title message expiration_date
                           start_date w)
      as [(? & Hr) | (o & before & d & after & _ & _ & _ & Hr)];
      rewrite Hr in *; done.
  - intros announcement_id w x Hrun.
    destruct (delete_cases announcement_id w)
      as [(? & Hr) | (o & before & d & after & _ & _ & Hr)];
      rewrite Hr in *; done.
Qed.

(** The number of records: create adds one exactly when it returns,
    delete removes one exactly when it returns, and update never
    changes it. *)
Theorem record_count
    (announcement_id : string) (title message expiration_date : string)
    (new_title new_message new_expiration : option string)
    (start_date : option string) (w : World) :
  let count (w : World) := length (announcements_collection w) in
  let created :=
    create_announcement title message expiration_date start_date w in
  let updated :=
    update_announcement announcement_id new_title new_message new_expiration
                        start_date w in
  let deleted := delete_announcement announcement_id w in
  count created.2
  = count w + (if created.1 is Return _ then 1 else 0) ∧
  count updated.2 = count w ∧
  count w = count deleted.2 + (if deleted.1 is Return _ then 1 else 0).
Proof.
  intros count created updated deleted. subst count. split; [|split].
  - subst created.
    destruct (create_cases title message expiration_date start_date w)
      as [(x & -> & ->) | (o & created_at & -> & -> & _)].
    + simpl. lia.
    + rewrite length_app. simpl. lia.
  - subst updated.
    destruct (update_cases announcement_id new_title new_message
                           new_expiration start_date w)
      as [(? & ->) | (o & before & d & after & _ & (Hc & _) & _ & ->)];
      [done|].
    rewrite Hc. cbn [snd with_collection announcements_collection].
    by rewrite !length_app.
  - subst deleted.
    destruct (delete_cases announcement_id w)
      as [(? & ->) | (o & before & d & after & _ & (Hc & _) & ->)].
    + simpl. lia.
    + rewrite Hc. cbn [fst snd with_collection announcements_collection].
      rewrite !length_app. simpl. lia.
Qed.

(** Update is idempotent: a call that succeeds succeeds again on the
    world it produced, with the same result and without changing that
    world. *)
Theorem update_idempotent
    (announcement_id : string)
    (title message expiration_date start_date : option string)
    (w w' : World) (r : Doc) :
  update_announcement announcement_id title message expiration_date
                      start_date w = (Return r, w') →
  update_announcement announcement_id title message expiration_date
                      start_date w' = (Return r, w').
Proof.
  intros Hrun.
  destruct (update_cases announcement_id title message expiration_date
                         start_date w)
    as [(? & Hr) | (o & before & d & after & Hid & Hloc & Hgiven & Hr)];
    simpl in Hr; rewrite Hr in Hrun; [done|].
  injection Hrun as <- <-.
  pose proof Hr as Hv.
  rewrite (update_located _ o _ _ _ _ _ Hid Hgiven _ _ _ Hloc) in Hv.
  set (update_data :=
         build_update_data title message expiration_date start_date) in *.
  assert (Hloc' : located o
                    (announcements_collection
                       (with_collection w
                          (before ++ (update_data ∪ d) :: after)))
                    before (update_data ∪ d) after).
  { destruct Hloc as (_ & Hd & Hb). repeat split; [|done].
    subst update_data. by rewrite update_data_no_id. }
  rewrite (update_located _ o _ _ _ _ _ Hid Hgiven _ _ _ Hloc').
  fold update_data.
  assert (Hsame : ∀ k, get_or update_data k (get (update_data ∪ d) k)
                       = get_or update_data k (get d k)).
  { intros k. unfold get_or, get.
    destruct (update_data !! k) as [v|] eqn:Hk; [done|]. simpl.
    by rewrite lookup_union_r. }
  rewrite !Hsame.
  destruct (if bool_decide _ then _ else _) as [[]|x]; [|done].
  rewrite (map_union_assoc update_data update_data d), map_union_idemp.
  by destruct w.
Qed.

(** *** Round trips *)

Lemma list_all_run (w : World) :
  (get_announcements true w).1
  = Return (stringify_id <$> announcements_collection w).
Proof.
  unfold get_announcements, find. rewrite !bind_run. simpl.
  do 2 f_equal. apply find_everything.
Qed.

Lemma stringify_keyed (o : ObjectId) (d : Doc) :
  stringify_id (<["_id" := VOid o]> d)
  = <["_id" := VStr (ObjectId_str o)]> d.
Proof.
  unfold stringify_id. rewrite lookup_insert_eq. simpl.
  apply insert_insert_eq.
Qed.

(** What create returns is what the full listing shows: after a
    successful create, [get_announcements true] returns the listing of
    the collection as it was, followed by the very record create
    returned. *)
Theorem create_then_list
    (title message expiration_date : string) (start_date : option string)
    (w w' : World) (r : Doc) :
  create_announcement title message expiration_date start_date w
  = (Return r, w') →
  (get_announcements true w').1
  = Return ((stringify_id <$> announcements_collection w) ++ [r]).
Proof.
  intros Hrun. rewrite list_all_run.
  destruct (create_cases title message expiration_date start_date w)
    as [(x & Hr & _) | (o & created_at & Hr & Hc & _)];
    simpl in *; rewrite Hrun in *; [done|].
  injection Hr as ->. simpl in Hc. rewrite Hc, fmap_app. simpl.
  by rewrite stringify_keyed.
Qed.

(** What update returns is what the full listing shows: after a
    successful update the returned record is in the listing, which has
    as many records as before. *)
Theorem update_then_list
    (announcement_id : string)
    (title message expiration_date start_date : option string)
    (w w' : World) (r : Doc) :
  update_announcement announcement_id title message expiration_date
                      start_date w = (Return r, w') →
  ∃ l, (get_announcements true w').1 = Return l ∧
       r ∈ l ∧
       length l = length (announcements_collection w).
Proof.
  intros Hrun. eexists. split; [apply list_all_run|].
  destruct (update_cases announcement_id title message expiration_date
                         start_date w)
    as [(? & Hr) | (o & before & d & after & _ & (Hc & Hd & _) & _ & Hr)];
    simpl in Hr; rewrite Hr in Hrun; [done|].
  injection Hrun as <- <-.
  cbn [with_collection announcements_collection]. split.
  - apply list_elem_of_fmap. eexists.
    split; [|apply elem_of_app; right; apply list_elem_of_here].
    unfold stringify_id. by rewrite update_data_no_id, Hd.
  - rewrite length_fmap, Hc, !length_app. done.
Qed.

(** Create and delete undo each other: when the identifier create
    returned parses back to the generated key, deleting it succeeds and
    leaves the collection exactly as it was before the create. *)
Theorem create_then_delete
    (title message expiration_date : string) (start_date : option string)
    (w w' : World) (r : Doc) :
  let o := ObjectId_generate (ids_issued w) in
  create_announcement title message expiration_date start_date w
  = (Return r, w') →
  ObjectId_new (ObjectId_str o) = Some o →
  r !! "_id" = Some (VStr (ObjectId_str o)) ∧
  delete_announcement (ObjectId_str o) w'
  = (Return {[ "message" := "Announcement deleted successfully" ]},
     with_collection w' (announcements_collection w)).
Proof.
  intros o Hrun Hid.
  destruct (date_verdict
              (VStr (effective_start start_date
                       (now_isoformat (clock_reads w))))
              (VStr expiration_date)) as [[]|x] eqn:Hv.
  2:{ destruct (create_rejected title message _ _ _ _ Hv) as [Hr _].
      by rewrite Hrun in Hr. }
  apply date_verdict_ordered in Hv as (ds & de & Hs & He & Hgt).
  apply datetime_gt_not_le in Hgt.
  rewrite (create_valid_run _ _ _ _ _ _ _ Hs He Hgt) in Hrun.
  fold o in Hrun.
  destruct (existsb _ _) eqn:Hfresh; [done|].
  apply existsb_absent in Hfresh.
  injection Hrun as <- <-. split; [by rewrite lookup_insert_eq|].
  erewrite delete_located; [|exact Hid|].
  - by rewrite app_nil_r.
  - split; [reflexivity|].
    split; [by rewrite lookup_insert_eq|exact Hfresh].
Qed.

(** *** Worlds the router reaches *)

Lemma new_announcement_router_record
    (title message start_date expiration_date created_at : string)
    (o : ObjectId) :
  router_record
    (<["_id" := VOid o]>
       (new_announcement title message start_date expiration_date
                         created_at)).
Proof.
  unfold router_record, new_announcement, text_fields. split; [|split].
  - exists o. by simplify_map_eq.
  - intros k Hk. repeat (apply elem_of_cons in Hk as [-> | Hk]);
      [by simplify_map_eq; eauto .. |].
    by apply elem_of_nil in Hk.
  - intros k Hk.
    repeat (rewrite lookup_insert in Hk; case_decide;
            [subst; first [by left | right; set_solver] | ]).
    rewrite lookup_empty in Hk. by destruct Hk.
Qed.

Lemma supplied_text_field
    (title message expiration_date start_date : option string)
    (k v : string) :
  supplied title message expiration_date start_date k = Some v →
  k ∈ text_fields.
Proof.
  unfold supplied, text_fields.
  repeat (case_decide; [subst; set_solver|]). done.
Qed.

Lemma update_keeps_router_record
    (title message expiration_date start_date : option string) (d : Doc) :
  router_record d →
  router_record
    (build_update_data title message expiration_date start_date ∪ d).
Proof.
  intros (Hid & Htext & Hdom). split; [|split].
  - by rewrite update_data_no_id.
  - intros k Hk. rewrite update_unsupplied.
    destruct (supplied _ _ _ _ k); eauto.
  - intros k. rewrite update_unsupplied.
    destruct (supplied _ _ _ _ k) eqn:Hk; [|apply Hdom].
    intros _. right. by eapply supplied_text_field.
Qed.

(** Every record of every world the router reaches from an empty
    collection has the shape create gives it: an [ObjectId] key, the
    five text fields [title], [message], [start_date],
    [expiration_date] and [created_at] as strings, and no other field.
    In particular no such record lacks a start date. *)
Theorem reachable_records_well_formed (w : World) :
  reachable w → Forall router_record (announcements_collection w).
Proof.
  induction 1 as [k i | r w Hw IH]; [constructor|].
  destruct r as [b | | t m e s | i t m e s | i]; cbn [serve].
  - by destruct b.
  - done.
  - destruct (create_cases t m e s w)
      as [(x & _ & ->) | (o & created_at & _ & -> & _)]; [done|].
    apply Forall_app. split; [done|].
    constructor; [apply new_announcement_router_record|constructor].
  - destruct (update_cases i t m e s w)
      as [(x & ->) | (o & before & d & after & _ & (Hc & _) & _ & ->)];
      [done|].
    cbn [snd with_collection announcements_collection].
    rewrite Hc in IH. apply Forall_app in IH as [? IH].
    apply Forall_cons in IH as [? ?].
    apply Forall_app. split; [done|].
    constructor; [by apply update_keeps_router_record|done].
  - destruct (delete_cases i w)
      as [(x & ->) | (o & before & d & after & _ & (Hc & _) & ->)];
      [done|].
    cbn [snd with_collection announcements_collection].
    rewrite Hc in IH. apply Forall_app in IH as [? IH].
    apply Forall_cons in IH as [? ?]. by apply Forall_app.
Qed.

(** In every world the router reaches from an empty collection the
    keys are pairwise different, so a successful delete leaves no
    record under the identifier and deleting it again fails with
    status 404. *)
Theorem reachable_delete_is_final (announcement_id : string) (w : World)
    (m : gmap string string) :
  let result := delete_announcement announcement_id w in
  reachable w →
  result.1 = Return m →
  NoDup (keys (announcements_collection w)) ∧
  (∀ o, ObjectId_new announcement_id = Some o →
        absent o (announcements_collection result.2)) ∧
  delete_announcement announcement_id result.2
  = (Raise (HTTPException 404 "Announcement not found"), result.2).
Proof.
  intros result Hw Hrun. subst result.
  apply reachable_invariant in Hw as [_ Hnd]. split; [done|].
  destruct (delete_cases announcement_id w)
    as [(x & Hr) | (o & before & d & after & Hid & Hloc & Hr)];
    simpl in Hr; rewrite Hr in *; [done|].
  pose proof (keys_unique_after_delete _ _ _ _ _ Hloc Hnd) as Habs.
  split.
  - intros o' Ho'. by simplify_eq.
  - by apply (delete_absent _ o).
Qed.

(** *** The exceptions that leave a handler *)

Lemma date_verdict_raises (sv ev : value) (x : exception) :
  date_verdict sv ev = Raise x →
  x = HTTPException 400 "Invalid date format" ∨
  x = HTTPException 400 "Expiration date must be after start date" ∨
  x = TypeError.
Proof.
  unfold date_verdict, datetime_le, datetime_cmp.
  destruct sv as [| s |]; try (intros [= <-]; by auto).
  destruct (fromisoformat s) as [ds|]; [|intros [= <-]; by auto].
  destruct ev as [| e |]; try (intros [= <-]; by auto).
  destruct (fromisoformat e) as [de|]; [|intros [= <-]; by auto].
  destruct (utcoffset de), (utcoffset ds);
    try (intros [= <-]; by auto);
    destruct (_ ?= _)%Z; intros [= <-]; by auto.
Qed.

(** The two listings always return.  Whatever the call and the world,
    create ends in a result, in one of its two 400 answers, in
    [TypeError] or in the store's [DuplicateKeyError]; update ends in a
    result, in one of its four 400 answers, in its 404 answer or in
    [TypeError]; delete ends in a result, in its 400 answer or in its
    404 answer.  No [ValueError] and no [KeyError] leaves a handler. *)
Theorem escaping_exceptions :
  (∀ b w, ∃ l, (get_announcements b w).1 = Return l) ∧
  (∀ w, ∃ l, (get_active_announcements w).1 = Return l) ∧
  (∀ title message expiration_date start_date w x,
      (create_announcement title message expiration_date start_date w).1
      = Raise x →
      x = HTTPException 400 "Invalid date format" ∨
      x = HTTPException 400 "Expiration date must be after start date" ∨
      x = TypeError ∨
      x = DuplicateKeyError) ∧
  (∀ announcement_id title message expiration_date start_date w x,
      (update_announcement announcement_id title message expiration_date
                           start_date w).1 = Raise x →
      x = HTTPException 400 "Invalid announcement ID" ∨
      x = HTTPException 400 "No fields to update" ∨
      x = HTTPException 404 "Announcement not found" ∨
      x = HTTPException 400 "Invalid date format" ∨
      x = HTTPException 400 "Expiration date must be after start date" ∨
      x = TypeError) ∧
  (∀ announcement_id w x,
      (delete_announcement announcement_id w).1 = Raise x →
      x = HTTPException 400 "Invalid announcement ID" ∨
      x = HTTPException 404 "Announcement not found").
Proof.
  split; [|split; [|split; [|split]]].
  - intros [] w; eexists; [apply list_all_run|apply list_unexpired_run].
  - intros w. eexists. apply list_active_run.
  - intros title message expiration_date start_date w x Hrun.
    destruct (date_verdict
                (VStr (effective_start start_date
                         (now_isoformat (clock_reads w))))
                (VStr expiration_date)) as [[]|x'] eqn:Hv.
    + destruct (create_accepted title message _ _ _ Hv)
        as [[Hr _] | (o & created_at & Hr & _)];
        simpl in Hr; rewrite Hrun in Hr; [|done].
      injection Hr as ->. auto.
    + destruct (create_rejected title message _ _ _ _ Hv) as [Hr _].
      rewrite Hrun in Hr. injection Hr as ->.
      apply date_verdict_raises in Hv. tauto.
  - intros announcement_id title message expiration_date start_date w x.
    destruct (ObjectId_new announcement_id) as [o|] eqn:Hid.
    2:{ rewrite update_malformed by done. intros [= <-]. auto. }
    destruct (decide (title = None ∧ message = None ∧ expiration_date = None
                      ∧ start_date = None)) as [(-> & -> & -> & ->)|Hgiven].
    { rewrite (update_no_fields _ o) by done. intros [= <-]. auto. }
    destruct (located_or_absent o (announcements_collection w))
      as [Habs | (before & d & after & Hloc)].
    { rewrite (update_absent _ o) by done. intros [= <-]. auto. }
    rewrite (update_located _ o _ _ _ _ _ Hid Hgiven _ _ _ Hloc).
    case_bool_decide; [|done].
    destruct (date_verdict _ _) as [[]|x'] eqn:Hv; [done|].
    intros [= <-]. apply date_verdict_raises in Hv. tauto.
  - intros announcement_id w x.
    destruct (ObjectId_new announcement_id) as [o|] eqn:Hid.
    2:{ rewrite delete_malformed by done. intros [= <-]. auto. }
    destruct (located_or_absent o (announcements_collection w))
      as [Habs | (before & d & after & Hloc)].
    + rewrite (delete_absent _ o) by done. intros [= <-]. auto.
    + by rewrite (delete_located _ o _ _ _ _ Hid Hloc).
Qed.

End Further.

(** ** The properties at work on the reference platform *)

#[local] Existing Instance Reference.platform.

(** Settles a decidable statement about concrete data by evaluation. *)
Ltac evaluate := apply (bool_decide_unpack _); vm_compute; exact I.

Lemma stored_dates_ordered_witness :
  (∃ d, announcements_collection Scenario.exam_world = [] ++ [d] ∧
        dates_ordered d) ∧
  (∃ o before d after d',
      ObjectId_new "665b2f000000000000000000" = Some o ∧
      located o [Scenario.exam; Scenario.notice] before d after ∧
      located o [<["expiration_date" := VStr "2100-01-01"]> Scenario.exam;
                 Scenario.notice] before d' after ∧
      dates_ordered d') ∧
  Forall dates_ordered [Scenario.exam].
Proof.
  destruct stored_dates_ordered as (Hcreate & Hupdate & Hreach).
  split; [|split].
  - apply (Hcreate "Exam" "Finals week" "2099-01-01T00:00:00"
             (Some "2024-01-01T00:00:00") Scenario.empty_world
             Scenario.exam_world Scenario.exam_shown).
    reflexivity.
  - apply (Hupdate "665b2f000000000000000000" None None (Some "2100-01-01")
             None Scenario.world
             (mkWorld [<["expiration_date" := VStr "2100-01-01"]>
                         Scenario.exam; Scenario.notice] 1 1)
             (<["expiration_date" := VStr "2100-01-01"]>
                Scenario.exam_shown)).
    + right. eexists. reflexivity.
    + reflexivity.
  - assert (Hw : announcements_collection
                   (serve (POST_announcement "Exam" "Finals week"
                             "2099-01-01T00:00:00"
                             (Some "2024-01-01T00:00:00"))
                          Scenario.empty_world)
                 = [Scenario.exam]) by reflexivity.
    rewrite <- Hw. apply Hreach, reachable_serve, reachable_empty.
Defined.

(** The second scenario of the specification: an expiration before the
    start is refused and nothing is stored. *)
Lemma create_rejects_bad_dates_witness :
  ∃ detail,
    (create_announcement "Exam" "Finals week" "2024-01-01T00:00:00"
                         (Some "2024-06-01T00:00:00") Scenario.exam_world).1
    = Raise (HTTPException 400 detail) ∧
    announcements_collection
      (create_announcement "Exam" "Finals week" "2024-01-01T00:00:00"
                           (Some "2024-06-01T00:00:00") Scenario.exam_world).2
    = [Scenario.exam].
Proof.
  apply (create_rejects_bad_dates "Exam" "Finals week" "2024-01-01T00:00:00"
           (Some "2024-06-01T00:00:00") Scenario.exam_world).
  right. right. eexists _, _. repeat split; reflexivity.
Defined.

(** An empty start date is unparsable, yet the call is accepted and a
    record is stored. *)
Lemma create_accepts_empty_start :
  fromisoformat "" = None ∧
  (∃ r, (create_announcement "Exam" "Finals week" "2099-01-01T00:00:00"
                             (Some "") Scenario.empty_world).1 = Return r) ∧
  length (announcements_collection
            (create_announcement "Exam" "Finals week" "2099-01-01T00:00:00"
                                 (Some "") Scenario.empty_world).2) = 1 ∧
  ¬ create_rejects_literally.
Proof.
  assert (Hrun : ∃ r, (create_announcement "Exam" "Finals week"
                         "2099-01-01T00:00:00" (Some "")
                         Scenario.empty_world).1 = Return r)
    by (eexists; reflexivity).
  split; [reflexivity|]. split; [exact Hrun|]. split; [reflexivity|].
  intros Hclaim.
  destruct (Hclaim "Exam" "Finals week" "2099-01-01T00:00:00" (Some "")
                   Scenario.empty_world) as (detail & Hr & _).
  - left. by exists "".
  - destruct Hrun as [r Hrun]. rewrite Hrun in Hr. discriminate Hr.
Qed.


Lemma update_changes_supplied_fields_only_witness :
  ∃ o before d after d',
    ObjectId_new "665b2f000000000000000000" = Some o ∧
    located o [Scenario.exam; Scenario.notice] before d after ∧
    mkWorld [<["title" := VStr "Midterms"]> Scenario.exam; Scenario.notice] 1 1
    = with_collection Scenario.world (before ++ d' :: after) ∧
    (∀ k, d' !! k
          = match supplied (Some "Midterms") None None None k with
            | Some v => Some (VStr v)
            | None => d !! k
            end) ∧
    d' !! "_id" = d !! "_id" ∧
    d' !! "created_at" = d !! "created_at" ∧
    <["title" := VStr "Midterms"]> Scenario.exam_shown = stringify_id d'.
Proof.
  apply (update_changes_supplied_fields_only "665b2f000000000000000000"
           (Some "Midterms") None None None Scenario.world).
  reflexivity.
Defined.

Lemma update_error_outcomes_witness :
  update_announcement "not-an-id" (Some "Midterms") None None None
                      Scenario.world
  = (Raise (HTTPException 400 "Invalid announcement ID"), Scenario.world) ∧
  (∃ detail,
      update_announcement "665b2f000000000000000000" None None None None
                          Scenario.world
      = (Raise (HTTPException 400 detail), Scenario.world)) ∧
  update_announcement "665b2f0000000000000000aa" (Some "Midterms") None None
                      None Scenario.world
  = (Raise (HTTPException 404 "Announcement not found"), Scenario.world).
Proof.
  split; [|split].
  - apply (update_error_outcomes "not-an-id" (Some "Midterms") None None None
             Scenario.world).
    reflexivity.
  - apply (update_error_outcomes "665b2f000000000000000000" None None None
             None Scenario.world); reflexivity.
  - destruct (update_error_outcomes "665b2f0000000000000000aa"
                (Some "Midterms") None None None Scenario.world)
      as (_ & _ & H404 & _).
    apply (H404 (mkObjectId 0x665b2f0000000000000000aa)).
    + reflexivity.
    + intros (? & _). done.
    + evaluate.
Defined.

(** A well-formed identifier that matches nothing, in a call without
    fields, is answered with status 400 and not with 404. *)
Lemma update_without_fields_is_not_404 :
  ObjectId_new "665b2f0000000000000000aa"
  = Some (mkObjectId 0x665b2f0000000000000000aa) ∧
  absent (mkObjectId 0x665b2f0000000000000000aa)
         (announcements_collection Scenario.world) ∧
  update_announcement "665b2f0000000000000000aa" None None None None
                      Scenario.world
  = (Raise (HTTPException 400 "No fields to update"), Scenario.world) ∧
  ¬ update_errors_literally.
Proof.
  assert (Habs : absent (mkObjectId 0x665b2f0000000000000000aa)
                        (announcements_collection Scenario.world)).
  { evaluate. }
  assert (Hrun : update_announcement "665b2f0000000000000000aa" None None
                   None None Scenario.world
                 = (Raise (HTTPException 400 "No fields to update"),
                    Scenario.world)) by reflexivity.
  split; [reflexivity|]. split; [exact Habs|]. split; [exact Hrun|].
  intros Hclaim.
  destruct (Hclaim "665b2f0000000000000000aa" None None None None
                   Scenario.world) as (_ & _ & H404).
  destruct (H404 _ eq_refl Habs) as [detail Hr].
  rewrite Hrun in Hr. discriminate Hr.
Qed.

(** The third scenario of the specification, and a change of title on
    a record whose stored dates are out of order. *)
Lemma update_validates_merged_dates_witness :
  update_announcement "665b2f000000000000000020" (Some "Science fair") None
                      None None (mkWorld [Scenario.backwards] 1 1)
  = (Return (<["title" := VStr "Science fair"]>
               (<["_id" := VStr "665b2f000000000000000020"]>
                  Scenario.backwards)),
     mkWorld [<["title" := VStr "Science fair"]> Scenario.backwards] 1 1) ∧
  update_announcement "665b2f000000000000000000" None None
                      (Some "2023-01-01T00:00:00") None Scenario.world
  = (Raise (HTTPException 400 "Expiration date must be after start date"),
     Scenario.world).
Proof.
  split.
  - assert (Hloc : located Scenario.backwards_id [Scenario.backwards]
                     [] Scenario.backwards []).
    { repeat split. constructor. }
    assert (Hid : ObjectId_new "665b2f000000000000000020"
                  = Some Scenario.backwards_id) by reflexivity.
    destruct (update_validates_merged_dates "665b2f000000000000000020"
                Scenario.backwards_id (Some "Science fair") None None None
                (mkWorld [Scenario.backwards] 1 1) [] [] Scenario.backwards
                Hid Hloc)
      as [Hplain _].
    rewrite Hplain; [reflexivity | reflexivity | reflexivity |].
    left. eexists. reflexivity.
  - assert (Hloc : located Scenario.exam_id
                     (announcements_collection Scenario.world)
                     [] Scenario.exam [Scenario.notice]).
    { repeat split. constructor. }
    assert (Hid : ObjectId_new "665b2f000000000000000000"
                  = Some Scenario.exam_id) by reflexivity.
    destruct (update_validates_merged_dates "665b2f000000000000000000"
                Scenario.exam_id None None (Some "2023-01-01T00:00:00") None
                Scenario.world [] [Scenario.notice] Scenario.exam Hid Hloc)
      as [_ Hdated].
    apply (Hdated (or_intror (ex_intro _ _ eq_refl))
                  "2024-01-01T00:00:00" "2023-01-01T00:00:00"
                  (mkDatetime 63839664000000000 None)
                  (mkDatetime 63808128000000000 None));
      reflexivity.
Defined.

Lemma update_without_stored_start_raises_witness :
  update_announcement "665b2f0000000000000000ff" None None
                      (Some "2100-01-01T00:00:00") None Scenario.world
  = (Raise TypeError, Scenario.world).
Proof.
  apply (update_without_stored_start_raises "665b2f0000000000000000ff"
           Scenario.notice_id None None "2100-01-01T00:00:00" Scenario.world
           [Scenario.exam] [] Scenario.notice).
  - reflexivity.
  - repeat split. evaluate.
  - left. reflexivity.
Defined.

Lemma delete_outcomes_witness :
  delete_announcement "not-an-id" Scenario.world
  = (Raise (HTTPException 400 "Invalid announcement ID"), Scenario.world) ∧
  delete_announcement "665b2f0000000000000000aa" Scenario.world
  = (Raise (HTTPException 404 "Announcement not found"), Scenario.world) ∧
  delete_announcement "665b2f000000000000000000" Scenario.world
  = (Return {[ "message" := "Announcement deleted successfully" ]},
     mkWorld [Scenario.notice] 1 1) ∧
  absent Scenario.exam_id [Scenario.notice].
Proof.
  split; [|split].
  - apply (delete_outcomes "not-an-id" Scenario.world). reflexivity.
  - destruct (delete_outcomes "665b2f0000000000000000aa" Scenario.world)
      as (_ & H404 & _).
    apply (H404 (mkObjectId 0x665b2f0000000000000000aa)).
    + reflexivity.
    + evaluate.
  - destruct (delete_outcomes "665b2f000000000000000000" Scenario.world)
      as (_ & _ & Hfound).
    destruct (Hfound Scenario.exam_id [] Scenario.exam [Scenario.notice])
      as [Hrun Hgone].
    + reflexivity.
    + repeat split. constructor.
    + split; [exact Hrun|]. apply Hgone.
      evaluate.
Defined.

Lemma empty_start_is_omitted_witness :
  let d := <["_id" := VOid Scenario.exam_id]>
             (new_announcement "Exam" "Finals week" "2024-06-01T12:00:00"
                               "2099-01-01T00:00:00" "2024-06-01T12:00:01") in
  <["_id" := VStr "665b2f000000000000000000"]> d !! "start_date"
  = Some (VStr "2024-06-01T12:00:00") ∧
  is_Some (fromisoformat "2024-06-01T12:00:00") ∧
  ∃ d', [d] = [] ++ [d'] ∧
        d' !! "start_date" = Some (VStr "2024-06-01T12:00:00").
Proof.
  intros d.
  assert (Hrun : create_announcement "Exam" "Finals week"
                   "2099-01-01T00:00:00" (Some "") Scenario.empty_world
                 = (Return (<["_id" := VStr "665b2f000000000000000000"]> d),
                    mkWorld [d] 2 1)) by reflexivity.
  exact (proj2 (empty_start_is_omitted "Exam" "Finals week"
                  "2099-01-01T00:00:00" Scenario.empty_world) _ _ Hrun).
Defined.

(** ** The time window against the instants *)



(** ** The further properties at work *)

Lemma expired_stays_expired_witness :
  ∃ earlier later,
    (get_announcements false Scenario.boundary_world).1 = Return earlier ∧
    (get_announcements false
       (mkWorld (announcements_collection Scenario.boundary_world) 2 1)).1
    = Return later ∧
    later `sublist_of` earlier.
Proof.
  apply (expired_stays_expired Scenario.boundary_world
           (mkWorld (announcements_collection Scenario.boundary_world) 2 1)).
  - reflexivity.
  - vm_compute. discriminate.
Defined.

Lemma results_carry_string_ids_witness :
  (Scenario.exam_shown !! "_id" = None
   ∨ ∃ i, Scenario.exam_shown !! "_id" = Some (VStr i)) ∧
  (∃ i, Scenario.exam_shown !! "_id" = Some (VStr i)) ∧
  (∃ i, (<["title" := VStr "Midterms"]> Scenario.exam_shown) !! "_id"
        = Some (VStr i)).
Proof.
  destruct results_carry_string_ids as (Hlist & Hactive & Hcreate & Hupdate).
  split; [|split].
  - apply (Hlist Scenario.world true
             [Scenario.exam_shown; stringify_id Scenario.notice]).
    + reflexivity.
    + apply list_elem_of_here.
  - apply (Hcreate "Exam" "Finals week" "2099-01-01T00:00:00"
             (Some "2024-01-01T00:00:00") Scenario.empty_world).
    reflexivity.
  - apply (Hupdate "665b2f000000000000000000" (Some "Midterms") None None
             None Scenario.world).
    reflexivity.
Defined.

(** The first scenario of the specification. *)
Lemma create_stores_and_returns_witness :
  create_announcement "Exam" "Finals week" "2099-01-01T00:00:00"
                      (Some "2024-01-01T00:00:00") Scenario.empty_world
  = (Return Scenario.exam_shown, Scenario.exam_world).
Proof.
  etrans.
  - apply (create_stores_and_returns "Exam" "Finals week"
             "2099-01-01T00:00:00" (Some "2024-01-01T00:00:00")
             Scenario.empty_world
             (mkDatetime 63839664000000000 None)
             (mkDatetime 66206505600000000 None)).
    + reflexivity.
    + reflexivity.
    + reflexivity.
    + constructor.
  - reflexivity.
Defined.

Lemma create_mixed_awareness_raises_witness :
  (@create_announcement Offsets.platform "Exam" "Finals week"
     "2099-01-01T00:00:00+02:00" (Some "2024-01-01T00:00:00")
     Scenario.exam_world).1 = Raise TypeError ∧
  announcements_collection
    (@create_announcement Offsets.platform "Exam" "Finals week"
       "2099-01-01T00:00:00+02:00" (Some "2024-01-01T00:00:00")
       Scenario.exam_world).2 = [Scenario.exam].
Proof.
  apply (@create_mixed_awareness_raises Offsets.platform "Exam" "Finals week"
           "2099-01-01T00:00:00+02:00" (Some "2024-01-01T00:00:00")
           Scenario.exam_world
           (mkDatetime 63839664000000000 None)
           (mkDatetime 66206505600000000 (Some 7200000000%Z))).
  - reflexivity.
  - reflexivity.
  - left. split; [reflexivity|]. eexists. reflexivity.
Defined.

Lemma update_mixed_awareness_raises_witness :
  @update_announcement Offsets.platform "665b2f000000000000000000" None None
    (Some "2099-01-01T00:00:00+02:00") None Scenario.world
  = (Raise TypeError, Scenario.world).
Proof.
  apply (@update_mixed_awareness_raises Offsets.platform
           "665b2f000000000000000000" Scenario.exam_id None None
           (Some "2099-01-01T00:00:00+02:00") None Scenario.world
           [] [Scenario.notice] Scenario.exam)
    with (s := "2024-01-01T00:00:00") (e := "2099-01-01T00:00:00+02:00")
         (ds := mkDatetime 63839664000000000 None)
         (de := mkDatetime 66206505600000000 (Some 7200000000%Z)).
  - reflexivity.
  - split; [reflexivity|]. split; [reflexivity|constructor].
  - right. eexists. reflexivity.
  - reflexivity.
  - reflexivity.
  - reflexivity.
  - reflexivity.
  - left. split; [reflexivity|]. eexists. reflexivity.
Defined.

Lemma update_rejects_unparsable_dates_witness :
  update_announcement "665b2f000000000000000000" None None None
                      (Some "yesterday") Scenario.world
  = (Raise (HTTPException 400 "Invalid date format"), Scenario.world) ∧
  update_announcement "665b2f000000000000000000" None None (Some "soon")
                      None Scenario.world
  = (Raise (HTTPException 400 "Invalid date format"), Scenario.world) ∧
  update_announcement "665b2f000000000000000010" None None None
                      (Some "2024-01-01")
                      (mkWorld [delete "expiration_date"
                                       Scenario.starting_now] 1 1)
  = (Raise TypeError,
     mkWorld [delete "expiration_date" Scenario.starting_now] 1 1).
Proof.
  assert (Hloc : located Scenario.exam_id
                   (announcements_collection Scenario.world)
                   [] Scenario.exam [Scenario.notice]).
  { split; [reflexivity|]. split; [reflexivity|constructor]. }
  assert (Hid : ObjectId_new "665b2f000000000000000000"
                = Some Scenario.exam_id) by reflexivity.
  split; [|split].
  - destruct (update_rejects_unparsable_dates "665b2f000000000000000000"
                Scenario.exam_id None None None (Some "yesterday")
                Scenario.world [] [Scenario.notice] Scenario.exam Hid Hloc)
      as (Hstart & _ & _).
    + left. eexists. reflexivity.
    + apply (Hstart "yesterday"); reflexivity.
  - destruct (update_rejects_unparsable_dates "665b2f000000000000000000"
                Scenario.exam_id None None (Some "soon") None
                Scenario.world [] [Scenario.notice] Scenario.exam Hid Hloc)
      as (_ & Hexpiry & _).
    + right. eexists. reflexivity.
    + apply (Hexpiry "2024-01-01T00:00:00" "soon");
        [reflexivity | eexists; reflexivity | reflexivity | reflexivity].
  - destruct (update_rejects_unparsable_dates "665b2f000000000000000010"
                (mkObjectId 0x665b2f000000000000000010) None None None
                (Some "2024-01-01")
                (mkWorld [delete "expiration_date" Scenario.starting_now] 1 1)
                [] [] (delete "expiration_date" Scenario.starting_now))
      as (_ & _ & Hmissing).
    + reflexivity.
    + split; [reflexivity|]. split; [reflexivity|constructor].
    + left. eexists. reflexivity.
    + apply (Hmissing "2024-01-01");
        [reflexivity | eexists; reflexivity | intros e; discriminate].
Defined.

Lemma failed_calls_write_nothing_witness :
  announcements_collection
    (create_announcement "Exam" "Finals week" "2024-01-01T00:00:00"
                         (Some "2024-06-01T00:00:00") Scenario.world).2
  = announcements_collection Scenario.world ∧
  (update_announcement "665b2f000000000000000000" None None
                       (Some "2023-01-01T00:00:00") None Scenario.world).2
  = Scenario.world ∧
  (delete_announcement "665b2f0000000000000000aa" Scenario.world).2
  = Scenario.world.
Proof.
  destruct failed_calls_write_nothing as (Hcreate & Hupdate & Hdelete).
  split; [|split].
  - apply (Hcreate "Exam" "Finals week" "2024-01-01T00:00:00"
             (Some "2024-06-01T00:00:00") Scenario.world
             (HTTPException 400 "Expiration date must be after start date")).
    reflexivity.
  - apply (Hupdate "665b2f000000000000000000" None None
             (Some "2023-01-01T00:00:00") None Scenario.world
             (HTTPException 400 "Expiration date must be after start date")).
    reflexivity.
  - apply (Hdelete "665b2f0000000000000000aa" Scenario.world
             (HTTPException 404 "Announcement not found")).
    reflexivity.
Defined.

Lemma update_idempotent_witness :
  update_announcement "665b2f000000000000000000" (Some "Midterms") None
    (Some "2100-01-01") None
    (mkWorld [<["expiration_date" := VStr "2100-01-01"]>
                (<["title" := VStr "Midterms"]> Scenario.exam);
              Scenario.notice] 1 1)
  = (Return (<["expiration_date" := VStr "2100-01-01"]>
               (<["title" := VStr "Midterms"]> Scenario.exam_shown)),
     mkWorld [<["expiration_date" := VStr "2100-01-01"]>
                (<["title" := VStr "Midterms"]> Scenario.exam);
              Scenario.notice] 1 1).
Proof.
  apply (update_idempotent "665b2f000000000000000000" (Some "Midterms") None
           (Some "2100-01-01") None Scenario.world).
  reflexivity.
Defined.

Lemma create_then_list_witness :
  (get_announcements true Scenario.exam_world).1
  = Return ((stringify_id <$> announcements_collection Scenario.empty_world)
              ++ [Scenario.exam_shown]).
Proof.
  apply (create_then_list "Exam" "Finals week" "2099-01-01T00:00:00"
           (Some "2024-01-01T00:00:00") Scenario.empty_world).
  reflexivity.
Defined.

Lemma update_then_list_witness :
  ∃ l, (get_announcements true
          (mkWorld [<["title" := VStr "Midterms"]> Scenario.exam;
                    Scenario.notice] 1 1)).1 = Return l ∧
       <["title" := VStr "Midterms"]> Scenario.exam_shown ∈ l ∧
       length l = length (announcements_collection Scenario.world).
Proof.
  apply (update_then_list "665b2f000000000000000000" (Some "Midterms") None
           None None Scenario.world).
  reflexivity.
Defined.

Lemma create_then_delete_witness :
  Scenario.exam_shown !! "_id"
  = Some (VStr (ObjectId_str
                  (ObjectId_generate (ids_issued Scenario.empty_world)))) ∧
  delete_announcement
    (ObjectId_str (ObjectId_generate (ids_issued Scenario.empty_world)))
    Scenario.exam_world
  = (Return {[ "message" := "Announcement deleted successfully" ]},
     with_collection Scenario.exam_world
       (announcements_collection Scenario.empty_world)).
Proof.
  apply (create_then_delete "Exam" "Finals week" "2099-01-01T00:00:00"
           (Some "2024-01-01T00:00:00") Scenario.empty_world).
  - reflexivity.
  - reflexivity.
Defined.

Lemma reachable_records_well_formed_witness :
  Forall router_record
    (announcements_collection
       (serve (PUT_announcement "665b2f000000000000000000" (Some "Midterms")
                 None None None)
          (serve (POST_announcement "Exam" "Finals week"
                    "2099-01-01T00:00:00" (Some "2024-01-01T00:00:00"))
             Scenario.empty_world))).
Proof.
  apply reachable_records_well_formed.
  apply reachable_serve, reachable_serve, reachable_empty.
Defined.

Lemma reachable_delete_is_final_witness :
  let w := serve (POST_announcement "Exam" "Finals week"
                    "2099-01-01T00:00:00" (Some "2024-01-01T00:00:00"))
                 Scenario.empty_world in
  let result := delete_announcement "665b2f000000000000000000" w in
  NoDup (keys (announcements_collection w)) ∧
  (∀ o, ObjectId_new "665b2f000000000000000000" = Some o →
        absent o (announcements_collection result.2)) ∧
  delete_announcement "665b2f000000000000000000" result.2
  = (Raise (HTTPException 404 "Announcement not found"), result.2).
Proof.
  intros w result.
  apply (reachable_delete_is_final "665b2f000000000000000000" w
           {[ "message" := "Announcement deleted successfully" ]}).
  - apply reachable_serve, reachable_empty.
  - reflexivity.
Defined.

Lemma escaping_exceptions_witness :
  (HTTPException 400 "Expiration date must be after start date"
   = HTTPException 400 "Invalid date format" ∨
   HTTPException 400 "Expiration date must be after start date"
   = HTTPException 400 "Expiration date must be after start date" ∨
   HTTPException 400 "Expiration date must be after start date" = TypeError ∨
   HTTPException 400 "Expiration date must be after start date"
   = DuplicateKeyError) ∧
  (TypeError = HTTPException 400 "Invalid announcement ID" ∨
   TypeError = HTTPException 400 "No fields to update" ∨
   TypeError = HTTPException 404 "Announcement not found" ∨
   TypeError = HTTPException 400 "Invalid date format" ∨
   TypeError = HTTPException 400 "Expiration date must be after start date" ∨
   TypeError = TypeError) ∧
  (HTTPException 404 "Announcement not found"
   = HTTPException 400 "Invalid announcement ID" ∨
   HTTPException 404 "Announcement not found"
   = HTTPException 404 "Announcement not found").
Proof.
  destruct escaping_exceptions as (_ & _ & Hcreate & Hupdate & Hdelete).
  split; [|split].
  - apply (Hcreate "Exam" "Finals week" "2024-01-01T00:00:00"
             (Some "2024-06-01T00:00:00") Scenario.world).
    reflexivity.
  - apply (Hupdate "665b2f0000000000000000ff" None None
             (Some "2100-01-01T00:00:00") None Scenario.world).
    reflexivity.
  - apply (Hdelete "665b2f0000000000000000aa" Scenario.world).
    reflexivity.
Defined.
